(** * logrus-hook-telegram: a shallow embedding of telegramhook.go

    The hook formats a logrus entry as an HTML message and posts it to the
    Telegram bot API.  Strings are Go strings, i.e. sequences of bytes
    ([string] of 8-bit [ascii]); [entry.Data] is a Go map, modelled as a
    [gmap] whose iteration order is any permutation of its entries; the
    effects of the hook (writes to os.Stderr, goroutines started with [go],
    requests answered by the HTTP transport) are threaded explicitly. *)

From Stdlib Require Import ZArith NArith Ascii DecimalString Permutation Lia.
From stdpp Require Import gmap strings list fin_maps.

Local Open Scope Z_scope.

(* ===================================================================== *)
(** ** Byte strings *)
(* ===================================================================== *)

Module Str.

(** [strings.HasPrefix s p] *)
Fixpoint HasPrefix (s p : string) {struct p} : bool :=
  match p, s with
  | EmptyString, _ => true
  | String a p', String b s' => if Ascii.eqb a b then HasPrefix s' p' else false
  | String _ _, EmptyString => false
  end.

(** [strings.Contains s sub] *)
Fixpoint Contains (s sub : string) : bool :=
  HasPrefix s sub ||
  match s with
  | EmptyString => false
  | String _ s' => Contains s' sub
  end.

(** [strings.Join elems sep] *)
Fixpoint Join (elems : list string) (sep : string) : string :=
  match elems with
  | [] => ""
  | [x] => x
  | x :: rest => x +:+ sep +:+ Join rest sep
  end.

(** [strings.IndexByte s c >= 0] *)
Fixpoint HasByte (s : string) (c : ascii) : bool :=
  match s with
  | EmptyString => false
  | String b s' => Ascii.eqb b c || HasByte s' c
  end.

(** [s[n:]] for [n <= len(s)] *)
Fixpoint drop (n : nat) (s : string) {struct n} : string :=
  match n, s with
  | O, _ => s
  | S n', String _ s' => drop n' s'
  | S _, EmptyString => EmptyString
  end.

(** [s[:n]] for [n <= len(s)] *)
Fixpoint take (n : nat) (s : string) {struct n} : string :=
  match n, s with
  | O, _ => EmptyString
  | S n', String c s' => String c (take n' s')
  | S _, EmptyString => EmptyString
  end.

(** [s[i:j]] for [i <= j <= len(s)] *)
Definition slice (i j : nat) (s : string) : string := take (j - i) (drop i s).

(** The decimal text of an integer: [strconv.Itoa], the verb [%d]. *)
Definition Itoa (z : Z) : string := NilZero.string_of_int (Z.to_int z).

Definition byte (n : N) : ascii := ascii_of_N n.
Definition code (c : ascii) : Z := Z.of_N (N_of_ascii c).

End Str.

(* ===================================================================== *)
(** ** The part of package logrus the hook uses *)
(* ===================================================================== *)

Module logrus.

(** [type Level uint32]: a value below [2^32]. *)
Definition Level := N.

Definition PanicLevel : Level := 0%N.
Definition FatalLevel : Level := 1%N.
Definition ErrorLevel : Level := 2%N.
Definition WarnLevel  : Level := 3%N.
Definition InfoLevel  : Level := 4%N.
Definition DebugLevel : Level := 5%N.
Definition TraceLevel : Level := 6%N.

(** [var AllLevels = []Level{PanicLevel, ..., TraceLevel}], length and
    capacity 7. *)
Definition AllLevels : list Level :=
  [PanicLevel; FatalLevel; ErrorLevel; WarnLevel; InfoLevel; DebugLevel;
   TraceLevel].

(** The position of a level on the ascending severity scale
    trace < debug < info < warn < error < fatal < panic. *)
Definition severity (l : Level) : Z := 6 - Z.of_N l.

(** A value stored in [Fields] ([interface{}]): the dynamic types whose
    [%+v] text is modelled. *)
Inductive Value :=
| VString (s : string)
| VInt (n : Z)
| VBool (b : bool)
| VError (msg : string)      (* an [error]; printed through [Error()] *)
| VNil.

(** [type Fields map[string]interface{}] *)
Abbreviation Fields := (gmap string Value).

(** The fields of [Entry] read by the hook. *)
Record Entry := mkEntry {
  EntryLevel : Level;
  Message : string;
  Data : Fields;
}.

End logrus.

(* ===================================================================== *)
(** ** package unicode/utf8 *)
(* ===================================================================== *)

Module utf8.

(** A [rune] is an int32, kept as a [Z] in [-2^31, 2^31). *)
Definition int32 (z : Z) : Z := (z + 2147483648) mod 4294967296 - 2147483648.
Definition uint32 (z : Z) : Z := z mod 4294967296.

Definition RuneError : Z := 65533.
Definition RuneSelf : Z := 128.

Definition b (z : Z) : ascii := Str.byte (Z.to_N (z mod 256)).

Definition encode3 (r : Z) : string :=
  String (b (Z.lor 224 (Z.shiftr r 12)))
    (String (b (Z.lor 128 (Z.land (Z.shiftr r 6) 63)))
      (String (b (Z.lor 128 (Z.land r 63))) "")).

(** [utf8.EncodeRune] / [utf8.AppendRune]: the bytes written for [r]. *)
Definition EncodeRune (r : Z) : string :=
  let i := uint32 r in
  if i <=? 127 then String (b r) ""
  else if i <=? 2047 then
    String (b (Z.lor 192 (Z.shiftr r 6)))
      (String (b (Z.lor 128 (Z.land r 63))) "")
  else if (1114111 <? i) || ((55296 <=? i) && (i <=? 57343)) then
    encode3 RuneError
  else if i <=? 65535 then encode3 r
  else
    String (b (Z.lor 240 (Z.shiftr r 18)))
      (String (b (Z.lor 128 (Z.land (Z.shiftr r 12) 63)))
        (String (b (Z.lor 128 (Z.land (Z.shiftr r 6) 63)))
          (String (b (Z.lor 128 (Z.land r 63))) ""))).

(** The table [first] with [acceptRanges]: for a leading byte, the size of
    the sequence and the range accepted for the second byte; [None] for
    the bytes marked [xx]. *)
Definition first (s0 : Z) : option (nat * Z * Z) :=
  if s0 <? 194 then None
  else if s0 <=? 223 then Some (2%nat, 128, 191)
  else if s0 =? 224 then Some (3%nat, 160, 191)
  else if s0 <=? 236 then Some (3%nat, 128, 191)
  else if s0 =? 237 then Some (3%nat, 128, 159)
  else if s0 <=? 239 then Some (3%nat, 128, 191)
  else if s0 =? 240 then Some (4%nat, 144, 191)
  else if s0 <=? 243 then Some (4%nat, 128, 191)
  else if s0 =? 244 then Some (4%nat, 128, 143)
  else None.

Definition cont (c : Z) : bool := (128 <=? c) && (c <=? 191).

(** [utf8.DecodeRuneInString s]: the rune and its width in bytes. *)
Definition DecodeRuneInString (s : string) : Z * nat :=
  match s with
  | EmptyString => (RuneError, 0%nat)
  | String c0 t0 =>
    let s0 := Str.code c0 in
    if s0 <? RuneSelf then (s0, 1%nat)
    else match first s0 with
    | None => (RuneError, 1%nat)
    | Some (sz, lo, hi) =>
      match t0 with
      | EmptyString => (RuneError, 1%nat)
      | String c1 t1 =>
        let s1 := Str.code c1 in
        if (s1 <? lo) || (hi <? s1) then (RuneError, 1%nat)
        else if (sz <=? 2)%nat then
          (Z.lor (Z.shiftl (Z.land s0 31) 6) (Z.land s1 63), 2%nat)
        else match t1 with
        | EmptyString => (RuneError, 1%nat)
        | String c2 t2 =>
          let s2 := Str.code c2 in
          if negb (cont s2) then (RuneError, 1%nat)
          else if (sz <=? 3)%nat then
            (Z.lor (Z.shiftl (Z.land s0 15) 12)
               (Z.lor (Z.shiftl (Z.land s1 63) 6) (Z.land s2 63)), 3%nat)
          else match t2 with
          | EmptyString => (RuneError, 1%nat)
          | String c3 _ =>
            let s3 := Str.code c3 in
            if negb (cont s3) then (RuneError, 1%nat)
            else
              (Z.lor (Z.shiftl (Z.land s0 7) 18)
                 (Z.lor (Z.shiftl (Z.land s1 63) 12)
                    (Z.lor (Z.shiftl (Z.land s2 63) 6) (Z.land s3 63))),
               4%nat)
          end
        end
      end
    end
  end.

End utf8.

(* ===================================================================== *)
(** ** package html: EscapeString and UnescapeString *)
(* ===================================================================== *)

Module html.

(** The replacer of [html.EscapeString]: five single bytes. *)
Definition escapeByte (c : ascii) : string :=
  if Ascii.eqb c "&" then "&amp;"
  else if Ascii.eqb c "'" then "&#39;"
  else if Ascii.eqb c "<" then "&lt;"
  else if Ascii.eqb c ">" then "&gt;"
  else if Ascii.eqb c (Str.byte 34) then "&#34;"
  else String c "".

Fixpoint EscapeString (s : string) : string :=
  match s with
  | EmptyString => ""
  | String c s' => escapeByte c +:+ EscapeString s'
  end.

Definition between (lo c hi : ascii) : bool :=
  (Str.code lo <=? Str.code c) && (Str.code c <=? Str.code hi).

Definition isDigit (hex : bool) (c : ascii) : option Z :=
  if between "0" c "9" then Some (Str.code c - 48)
  else if hex && between "a" c "f" then Some (Str.code c - 97 + 10)
  else if hex && between "A" c "F" then Some (Str.code c - 65 + 10)
  else None.

(** The digit loop of a numeric reference, from [s[i:]]: the value [x]
    (an int32) and how far [i] advanced; a following [;] is consumed. *)
Fixpoint scanNumber (hex : bool) (x : Z) (s : string) : Z * nat :=
  match s with
  | EmptyString => (x, 0%nat)
  | String c s' =>
    match isDigit hex c with
    | Some d =>
      let '(x', n) :=
        scanNumber hex (utf8.int32 ((if hex then 16 else 10) * x + d)) s' in
      (x', S n)
    | None => if Ascii.eqb c ";" then (x, 1%nat) else (x, 0%nat)
    end
  end.

Definition isAlnum (c : ascii) : bool :=
  between "a" c "z" || between "A" c "Z" || between "0" c "9".

(** The name loop of a named reference, from [s[i:]]. *)
Fixpoint scanName (s : string) : nat :=
  match s with
  | EmptyString => 0%nat
  | String c s' =>
    if isAlnum c then S (scanName s')
    else if Ascii.eqb c ";" then 1%nat else 0%nat
  end.

Definition longestEntityWithoutSemicolon : nat := 6.

Section Tables.
(** The tables of package html; a key that is absent reads as zero. *)
Variable entity : string -> Z.
Variable entity2 : string -> Z * Z.
Variable replacementTable : Z -> Z.

(** [for j := maxLen; j > 1; j--]: the longest prefix of the name that
    is an entity; gives the rune and the bytes of [s] consumed. *)
Fixpoint prefixEntity (entityName : string) (j : nat) : option (Z * nat) :=
  match j with
  | O => None
  | S j' =>
    if (j <=? 1)%nat then None
    else
      let x := entity (Str.take j entityName) in
      if negb (x =? 0) then Some (x, S j)
      else prefixEntity entityName j'
  end.

(** The end of [unescapeEntity]: the name [s[1:i]] is looked up in
    [entity], then in [entity2], then by its prefixes; a name that is
    not found is copied as it is. *)
Definition namedEntity (entityName : string) (i : nat) (s : string)
  : string * nat :=
  let asis := (Str.take i s, i) in
  if (String.length entityName =? 0)%nat then asis
  else if negb (entity entityName =? 0) then
    (utf8.EncodeRune (entity entityName), i)
  else if negb (fst (entity2 entityName) =? 0) then
    (utf8.EncodeRune (fst (entity2 entityName))
       +:+ utf8.EncodeRune (snd (entity2 entityName)), i)
  else
    let maxLen :=
      Nat.min (String.length entityName - 1)
              longestEntityWithoutSemicolon in
    match prefixEntity entityName maxLen with
    | Some (x, k) => (utf8.EncodeRune x, k)
    | None => asis
    end.

(** [unescapeEntity] with [attribute = false], on [s = b[src:]] where
    [s[0] = '&']: the bytes written at [dst] and the bytes read. *)
Definition unescapeEntity (s : string) : string * nat :=
  match s with
  | EmptyString => ("", 0%nat)
  | String amp EmptyString => (String amp "", 1%nat)
  | String amp (String c1 t1 as t0) =>
    if Ascii.eqb c1 "#" then
      if (String.length s <=? 3)%nat then (String amp "", 1%nat)
      else
        let hex :=
          match t1 with
          | String c _ => Ascii.eqb c "x" || Ascii.eqb c "X"
          | EmptyString => false
          end in
        let start := if hex then 3%nat else 2%nat in
        let '(x, n) := scanNumber hex 0 (Str.drop start s) in
        let i := (start + n)%nat in
        if (i <=? 3)%nat then (String amp "", 1%nat)
        else
          let x :=
            if (128 <=? x) && (x <=? 159) then replacementTable (x - 128)
            else if (x =? 0) || ((55296 <=? x) && (x <=? 57343))
                    || (1114111 <? x)
            then utf8.RuneError
            else x in
          (utf8.EncodeRune x, i)
    else
      let i := S (scanName t0) in
      namedEntity (Str.slice 1 i s) i s
  end.

(** The loop of [UnescapeString]: bytes up to the next [&] are copied,
    a reference is rewritten by [unescapeEntity].  The Go code rewrites
    a copy of [s] in place, behind the read position; the bytes still
    to be read are those of [s]. *)
Fixpoint unescapeLoop (fuel : nat) (s : string) : string :=
  match fuel with
  | O => s
  | S fuel' =>
    match s with
    | EmptyString => ""
    | String c s' =>
      if Ascii.eqb c "&" then
        let '(out, k) := unescapeEntity s in
        out +:+ unescapeLoop fuel' (Str.drop k s)
      else String c (unescapeLoop fuel' s')
    end
  end.

Definition UnescapeString (s : string) : string :=
  unescapeLoop (String.length s) s.

End Tables.

End html.

(* ===================================================================== *)
(** ** package fmt *)
(* ===================================================================== *)

Module fmt.
Import logrus.

(** [fmt.Sprintf("%+v", v)] on the modelled dynamic types: for the verb
    [v] the plus flag only selects field names of structs. *)
Definition plus_v (v : Value) : string :=
  match v with
  | VString s => s
  | VInt n => Str.Itoa n
  | VBool true => "true"
  | VBool false => "false"
  | VError msg => msg
  | VNil => "<nil>"
  end.

(** *** [doPrintf] on a format with no operands

    [fmt.Errorf(msg)] hands [msg] to [doPrintf] as the format, with an
    empty operand list.  Positions in the format are kept as the suffix
    still to be read. *)

Definition isFlag (c : ascii) : bool :=
  Ascii.eqb c "#" || Ascii.eqb c "0" || Ascii.eqb c "+" || Ascii.eqb c "-"
  || Ascii.eqb c " ".

(** The loop [simpleFormat]; with no operand left the fast path for a
    lower-case verb is never taken. *)
Fixpoint skipFlags (s : string) : string :=
  match s with
  | String c s' => if isFlag c then skipFlags s' else s
  | EmptyString => s
  end.

Definition tooLarge (x : Z) : bool := (1000000 <? x) || (x <? -1000000).

Fixpoint parsenumLoop (num : Z) (isnum : bool) (s : string)
  : Z * bool * string :=
  match s with
  | EmptyString => (num, isnum, s)
  | String c s' =>
    if html.between "0" c "9" then
      if tooLarge num then (0, false, "")
      else parsenumLoop (num * 10 + (Str.code c - 48)) true s'
    else (num, isnum, s)
  end.

(** [parsenum(s, start, end)] on [s[start:end]]: the number, whether one
    was read, and what is left before [end]. *)
Definition parsenum (s : string) : Z * bool * string := parsenumLoop 0 false s.

(** The index of the first [']'] at or after position [i]. *)
Fixpoint indexBracket (i : nat) (s : string) : option nat :=
  match s with
  | EmptyString => None
  | String c s' => if Ascii.eqb c "]" then Some i else indexBracket (S i) s'
  end.

(** [parseArgNumber(format)] where [format[0] = '[']: index, width of the
    bracketed part, ok. *)
Definition parseArgNumber (format : string) : Z * nat * bool :=
  if (String.length format <? 3)%nat then (0, 1%nat, false)
  else
    match indexBracket 1 (Str.drop 1 format) with
    | None => (0, 1%nat, false)
    | Some i =>
      let '(width, ok, rest) := parsenum (Str.slice 1 i format) in
      if negb ok || negb (String.eqb rest "") then (0, S i, false)
      else (width - 1, S i, true)
    end.

(** [p.argNumber(argNum, format, i, numArgs)] with [numArgs] operands:
    what is left of the format, [found], and whether [p.goodArgNum]
    stays as it was ([good]). *)
Definition argNumber (numArgs : Z) (good : bool) (s : string)
  : string * bool * bool :=
  match s with
  | String c _ =>
    if Ascii.eqb c "[" then
      let '(index, wid, ok) := parseArgNumber s in
      if ok && (0 <=? index) && (index <? numArgs)
      then (Str.drop wid s, true, good)
      else (Str.drop wid s, ok, false)
    else (s, false, good)
  | EmptyString => (s, false, good)
  end.

Definition badWidthString := "%!(BADWIDTH)".
Definition badPrecString := "%!(BADPREC)".
Definition noVerbString := "%!(NOVERB)".

(** One directive, read after its [%], with no operand to print: the text
    written and the format left, [None] when the loop is left by
    [break]. *)
Definition directive (s : string) : string * option string :=
  let s := skipFlags s in
  let '(s, afterIndex, good) := argNumber 0 true s in
  (* width *)
  let '(out, s, afterIndex, good) :=
    match s with
    | String "*" s' => (badWidthString, s', false, good)
    | _ =>
      let '(_, widPresent, s') := parsenum s in
      ("", s', afterIndex, if afterIndex && widPresent then false else good)
    end in
  (* precision *)
  let '(out, s, afterIndex, good) :=
    match s with
    | String "." s' =>
      let good := if afterIndex then false else good in
      let '(s', afterIndex, good) := argNumber 0 good s' in
      match s' with
      | String "*" s'' => (out +:+ badPrecString, s'', false, good)
      | _ => let '(_, _, s'') := parsenum s' in (out, s'', afterIndex, good)
      end
    | _ => (out, s, afterIndex, good)
    end in
  let '(s, afterIndex, good) :=
    if afterIndex then (s, afterIndex, good) else argNumber 0 good s in
  match s with
  | EmptyString => (out +:+ noVerbString, None)
  | String c _ =>
    let '(verb, size) :=
      if utf8.RuneSelf <=? Str.code c then utf8.DecodeRuneInString s
      else (Str.code c, 1%nat) in
    let rest := Str.drop size s in
    if verb =? 37 then (out +:+ "%", Some rest)
    else if negb good then
      (out +:+ "%!" +:+ utf8.EncodeRune verb +:+ "(BADINDEX)", Some rest)
    else
      (out +:+ "%!" +:+ utf8.EncodeRune verb +:+ "(MISSING)", Some rest)
  end.

Fixpoint doPrintf0 (fuel : nat) (format : string) : string :=
  match fuel with
  | O => ""
  | S fuel' =>
    match format with
    | EmptyString => ""
    | String c rest =>
      if Ascii.eqb c "%" then
        match directive rest with
        | (out, Some rest') => out +:+ doPrintf0 fuel' rest'
        | (out, None) => out
        end
      else String c (doPrintf0 fuel' rest)
    end
  end.

(** The text of [fmt.Sprintf(format)] and of the error [fmt.Errorf(format)]
    when the call passes no operand. *)
Definition Sprintf0 (format : string) : string :=
  doPrintf0 (S (String.length format)) format.

End fmt.

(* ===================================================================== *)
(** ** telegramhook.go *)
(* ===================================================================== *)

Module telegramhook.
Import logrus.

Definition LF : string := String (Str.byte 10) "".
Definition TAB : string := String (Str.byte 9) "".

(** *** Wire types *)

(** [apiRequest]: the request structure sent to the Telegram API. *)
Record apiRequest := mkApiRequest {
  ChatId_ : string;
  ThreadId_ : string;
  Text : string;
  ParseMode : string;
}.

(** [apiResponse]: the response structure received from the Telegram API;
    a nil pointer is [None], [Result] is kept as its JSON text. *)
Record apiResponse := mkApiResponse {
  Ok : bool;
  ErrorCode : option Z;
  Desc : option string;
  Result : option string;
}.

(** *** Errors *)

(** The dynamic types of the [error] values that reach the hook. *)
Inductive error :=
| url_Error (Op URL Err : string)   (* [*url.Error], from [http.Client] *)
| json_Error (text : string)        (* from [json.Decoder.Decode] *)
| errorString (s : string).         (* from [fmt.Errorf] *)

(** What the hook takes from the Go libraries without this file fixing
    it: [url.JoinPath] with its error dropped (as both callers do),
    [strconv.Quote] (the verb [%q]) and [json.MarshalIndent v "" "\t"]
    on an [apiResponse]. *)
Class GoLib := {
  JoinPath : string -> string -> string;
  Quote : string -> string;
  MarshalIndent : apiResponse -> string;
}.

(** The method [Error()]; [%v] and [%s] print an error through it.
    [url.Error] prints as [fmt.Sprintf("%s %q: %s", e.Op, e.URL, e.Err)]. *)
Definition Error `{GoLib} (e : error) : string :=
  match e with
  | url_Error op u err => op +:+ " " +:+ Quote u +:+ ": " +:+ err
  | json_Error text => text
  | errorString s => s
  end.

(** *** The HTTP client *)

Inductive Method := GET | POST.

Record Request := mkRequest {
  method : Method;
  url : string;
  contentType : string;
  body : option apiRequest;     (* the JSON document [json.Marshal] built *)
}.

(** The body of a response, as the JSON decoder will find it: not a
    document it accepts for [apiResponse], or one it decodes to [r]. *)
Inductive Body :=
| Malformed (why : string)
| Document (r : apiResponse).

(** [http.Client]: the timeout and the behaviour of its transport, which
    for a request either fails with a cause or delivers a response. *)
Record Client := mkClient {
  Timeout : Z;
  Transport : Request -> string + Body;
}.

Definition urlErrorOp (m : Method) : string :=
  match m with GET => "Get" | POST => "Post" end.

(** [c.do]: a failed round trip comes back as a [*url.Error] that names
    the method and the URL of the request. *)
Definition do (c : Client) (req : Request) : error + Body :=
  match Transport c req with
  | inl cause => inl (url_Error (urlErrorOp (method req)) (url req) cause)
  | inr res => inr res
  end.

(** [c.Get(url)] *)
Definition Get (c : Client) (url : string) : error + Body :=
  do c (mkRequest GET url "" None).

(** [c.Post(url, contentType, body)] *)
Definition Post (c : Client) (url contentType : string) (body : apiRequest)
  : error + Body :=
  do c (mkRequest POST url contentType (Some body)).

(** [json.NewDecoder(res.Body).Decode(&apiRes)] *)
Definition Decode (res : Body) : error + apiResponse :=
  match res with
  | Malformed why => inl (json_Error why)
  | Document r => inr r
  end.

(** *** The hook *)

(** [TelegramHook]; the lock [mu] serialises the accessors and has no
    counterpart in this sequential model. *)
Record TelegramHook := mkHook {
  client : Client;
  appName : string;
  authToken : string;
  chatId : string;
  threadId : string;
  level : Level;
  async : bool;
}.

Definition ApiEndpoint (h : TelegramHook) : string :=
  "https://api.telegram.org/bot" +:+ authToken h.

Definition AppName (h : TelegramHook) : string := appName h.
Definition AuthToken (h : TelegramHook) : string := authToken h.
Definition ChatId (h : TelegramHook) : string := chatId h.
Definition ThreadId (h : TelegramHook) : string := threadId h.
Definition Level (h : TelegramHook) : logrus.Level := level h.
Definition Async (h : TelegramHook) : bool := async h.

Definition SetAppName (appName : string) (h : TelegramHook) : TelegramHook :=
  mkHook (client h) appName (authToken h) (chatId h) (threadId h) (level h) (async h).
Definition SetAuthToken (authToken : string) (h : TelegramHook) : TelegramHook :=
  mkHook (client h) (appName h) authToken (chatId h) (threadId h) (level h) (async h).
Definition SetChatId (chatId : string) (h : TelegramHook) : TelegramHook :=
  mkHook (client h) (appName h) (authToken h) chatId (threadId h) (level h) (async h).
Definition SetThreadId (threadId : string) (h : TelegramHook) : TelegramHook :=
  mkHook (client h) (appName h) (authToken h) (chatId h) threadId (level h) (async h).
Definition SetLevel (level : logrus.Level) (h : TelegramHook) : TelegramHook :=
  mkHook (client h) (appName h) (authToken h) (chatId h) (threadId h) level (async h).
Definition SetAsync (async : bool) (h : TelegramHook) : TelegramHook :=
  mkHook (client h) (appName h) (authToken h) (chatId h) (threadId h) (level h) async.

(** [Option]: a configuration step applied to the hook under
    construction. *)
Definition Option := TelegramHook -> TelegramHook.

Definition WithAsync (async : bool) : Option := SetAsync async.

Definition WithTimeout (timeout : Z) : Option := fun h =>
  if 0 <? timeout
  then mkHook (mkClient timeout (Transport (client h))) (appName h)
         (authToken h) (chatId h) (threadId h) (level h) (async h)
  else h.

Definition WithLevel (level : logrus.Level) : Option := SetLevel level.

(** [for _, opt := range options { opt(&h) }] *)
Definition applyOptions (options : list Option) (h : TelegramHook)
  : TelegramHook :=
  fold_left (fun h opt => opt h) options h.

(** The message both remote calls build from a response with [ok = false]
    (the same statements in [verifyToken] and in [sendMessage]):
    [fmt.Sprintf("%s (error code %d)", msg, *apiRes.ErrorCode)], then
    [fmt.Sprintf("%s: %s", msg, *apiRes.Desc)]. *)
Definition errorResponseText (apiRes : apiResponse) : string :=
  let msg := "Received error response from Telegram API" in
  let msg :=
    match ErrorCode apiRes with
    | Some code => msg +:+ " (error code " +:+ Str.Itoa code +:+ ")"
    | None => msg
    end in
  let msg :=
    match Desc apiRes with
    | Some desc => msg +:+ ": " +:+ desc
    | None => msg
    end in
  msg.

Section Remote.
Context `{GoLib}.

(** [verifyToken]: [nil] is [None]. *)
Definition verifyToken (h : TelegramHook) : option error :=
  let endpoint := JoinPath (ApiEndpoint h) "getMe" in
  match Get (client h) endpoint with
  | inl err => Some err
  | inr res =>
    match Decode res with
    | inl err => Some err
    | inr apiRes =>
      if negb (Ok apiRes) then
        let msg := errorResponseText apiRes in
        let j := MarshalIndent apiRes in
        Some (errorString (msg +:+ LF +:+ j))
      else None
    end
  end.

(** [NewTelegramHookWithClient]: the pair Go returns, a nil pointer
    and a nil error being [None]. *)
Definition NewTelegramHookWithClient
    (appName authToken chatId threadId : string) (client : Client)
    (options : list Option) : option TelegramHook * option error :=
  let h := mkHook client appName authToken chatId threadId ErrorLevel false in
  let h := applyOptions options h in
  match verifyToken h with
  | Some err => (None, Some err)
  | None => (Some h, None)
  end.

(** [NewTelegramHook] builds the zero [http.Client]; [net] is what the
    default transport does. *)
Definition NewTelegramHook (net : Request -> string + Body)
    (appName authToken chatId threadId : string)
    (options : list Option) : option TelegramHook * option error :=
  NewTelegramHookWithClient appName authToken chatId threadId
    (mkClient 0 net) options.

End Remote.

(** *** Effects

    What a call leaves behind: the bytes written to [os.Stderr] and the
    goroutines started by [go h.sendMessage(msg)], each kept as the
    message it was given.  Nothing waits for a goroutine and nothing
    reads its result. *)
Record World := mkWorld {
  stderr : string;
  goroutines : list string;
}.

Definition M (A : Type) : Type := World -> A * World.

#[global] Instance M_ret : MRet M := fun A a w => (a, w).
#[global] Instance M_bind : MBind M :=
  fun A B k c w => let '(a, w') := c w in k a w'.

(** [fmt.Fprintf(os.Stderr, ...)] once the text is formatted. *)
Definition Fprint_Stderr (text : string) : M unit :=
  fun w => (tt, mkWorld (stderr w +:+ text) (goroutines w)).

(** The statement [go h.sendMessage(msg)]. *)
Definition go_sendMessage (msg : string) : M unit :=
  fun w => (tt, mkWorld (stderr w) (goroutines w ++ [msg])).

Section Delivery.
Context `{GoLib}.

(** [sendMessage]; [json.Marshal] cannot fail on a struct of strings,
    the request carries the struct. *)
Definition sendMessage (h : TelegramHook) (msg : string) : M (option error) :=
  let apiReq := mkApiRequest (ChatId h) (ThreadId h) msg "HTML" in
  let endpoint := JoinPath (ApiEndpoint h) "sendMessage" in
  match Post (client h) endpoint "application/json" apiReq with
  | inl err =>
    Fprint_Stderr
      ("Encountered error when issuing request to Telegram API, "
         +:+ Error err) ;;
    mret (Some err)
  | inr res =>
    match Decode res with
    | inl err => mret (Some err)
    | inr apiRes =>
      if negb (Ok apiRes) then
        let msg := errorResponseText apiRes in
        mret (Some (errorString (fmt.Sprintf0 msg)))
      else mret None
    end
  end.

(** The switch of [createMessage]: no case for [TraceLevel] nor for a
    value above it, and no default. *)
Definition levelTag (l : logrus.Level) : string :=
  if (l =? PanicLevel)%N then "<b>PANIC</b>"
  else if (l =? FatalLevel)%N then "<b>FATAL</b>"
  else if (l =? ErrorLevel)%N then "<b>ERROR</b>"
  else if (l =? WarnLevel)%N then "<b>WARNING</b>"
  else if (l =? InfoLevel)%N then "<b>INFO</b>"
  else if (l =? DebugLevel)%N then "<b>DEBUG</b>"
  else "".

(** [fmt.Sprintf("\t%s: %+v", k, v)] *)
Definition fieldLine (kv : string * Value) : string :=
  TAB +:+ fst kv +:+ ": " +:+ fmt.plus_v (snd kv).

(** [createMessage], given the order in which [range entry.Data]
    yields the fields. *)
Definition createMessageIn (order : list (string * Value))
    (h : TelegramHook) (entry : Entry) : string :=
  let msg := levelTag (EntryLevel entry) in
  let msg := Str.Join [msg; AppName h] "@" in
  let msg := Str.Join [msg; Message entry] " - " in
  if (0 <? size (Data entry))%nat then
    let msg := Str.Join [msg; "<pre>"] LF in
    let msg :=
      fold_left
        (fun msg kv => Str.Join [msg; html.EscapeString (fieldLine kv)] LF)
        order msg in
    let msg := Str.Join [msg; "</pre>"] LF in
    msg
  else msg.

(** Go leaves the iteration order of a map unspecified: [range] yields
    every entry once, in some order. *)
Definition rangeOrder (m : Fields) (order : list (string * Value)) : Prop :=
  order ≡ₚ map_to_list m.

(** [createMessage] as the relation between an entry and the strings a
    call may return. *)
Definition createMessage (h : TelegramHook) (entry : Entry) (out : string) : Prop :=
  exists order, rangeOrder (Data entry) order /\ out = createMessageIn order h entry.

(** [Levels]: [logrus.AllLevels[:h.level+1]]; the bound is computed in
    uint32, and a bound above the capacity of [AllLevels] is a run-time
    panic ([None]). *)
Definition Levels (h : TelegramHook) : option (list logrus.Level) :=
  let high := ((level h + 1) mod 4294967296)%N in
  if (high <=? N.of_nat (length AllLevels))%N
  then Some (take (N.to_nat high) AllLevels)
  else None.

(** logrus fires a hook for an entry whose level is among [Levels()]. *)
Definition enabled (h : TelegramHook) (l : logrus.Level) : bool :=
  match Levels h with
  | Some ls => existsb (N.eqb l) ls
  | None => false
  end.

(** [Fire], given the order [range] takes inside [createMessage]. *)
Definition Fire (order : list (string * Value)) (h : TelegramHook)
    (entry : Entry) : M (option error) :=
  let msg := createMessageIn order h entry in
  if Async h then
    go_sendMessage msg ;;
    mret None
  else
    r ← sendMessage h msg ;
    match r with
    | Some err =>
      Fprint_Stderr ("Unable to send message, " +:+ Error err) ;;
      mret (Some err)
    | None => mret None
    end.

(** A goroutine started by [Fire] runs [sendMessage] on the hook as it
    is by then and drops the result. *)
Definition runGoroutine (h : TelegramHook) (msg : string) : M unit :=
  sendMessage h msg ≫= λ _, mret tt.

End Delivery.

End telegramhook.

(* ===================================================================== *)
(** ** A concrete reading of the library functions

    Used where a statement is evaluated on concrete input.  Each function
    agrees with Go on the inputs it is applied to below: URLs and tokens made
    of ASCII letters, digits and [: - _ . /], descriptions of printable
    ASCII without quotes or backslashes. *)
(* ===================================================================== *)

Module plain.
Import telegramhook.

Definition DQ : string := String (Str.byte 34) "".

(** [url.JoinPath base elem] for a base that parses, has no query or
    fragment, no trailing slash, no dot segment and no byte to escape. *)
Definition JoinPath (base elem : string) : string := base +:+ "/" +:+ elem.

Definition lowerhex (n : Z) : ascii :=
  if n <? 10 then Str.byte (Z.to_N (48 + n)) else Str.byte (Z.to_N (87 + n)).

(** [strconv.Quote] on one ASCII byte. *)
Definition quoteByte (c : ascii) : string :=
  let n := Str.code c in
  if (n =? 34) || (n =? 92) then String "\" (String c "")
  else if (32 <=? n) && (n <? 127) then String c ""
  else if n =? 7 then "\a" else if n =? 8 then "\b"
  else if n =? 12 then "\f" else if n =? 10 then "\n"
  else if n =? 13 then "\r" else if n =? 9 then "\t"
  else if n =? 11 then "\v"
  else "\x" +:+ String (lowerhex (n / 16)) (String (lowerhex (n mod 16)) "").

Fixpoint quoteBytes (s : string) : string :=
  match s with
  | EmptyString => ""
  | String c s' => quoteByte c +:+ quoteBytes s'
  end.

(** [strconv.Quote s] for a string of ASCII bytes. *)
Definition Quote (s : string) : string := DQ +:+ quoteBytes s +:+ DQ.

(** [json.MarshalIndent(apiRes, "", "\t")] for a response without
    [result] whose description needs no JSON escape. *)
Definition MarshalIndent (r : apiResponse) : string :=
  "{" +:+ LF +:+ TAB +:+ DQ +:+ "ok" +:+ DQ +:+ ": "
    +:+ (if Ok r then "true" else "false")
    +:+ match ErrorCode r with
        | Some c => "," +:+ LF +:+ TAB +:+ DQ +:+ "error_code" +:+ DQ +:+ ": " +:+ Str.Itoa c
        | None => ""
        end
    +:+ match Desc r with
        | Some d => "," +:+ LF +:+ TAB +:+ DQ +:+ "description" +:+ DQ +:+ ": " +:+ DQ +:+ d +:+ DQ
        | None => ""
        end
    +:+ LF +:+ "}".

#[export] Instance lib : GoLib :=
  {| telegramhook.JoinPath := JoinPath;
     telegramhook.Quote := Quote;
     telegramhook.MarshalIndent := MarshalIndent |}.

End plain.

(* ===================================================================== *)
(** ** Sample hooks, entries and responses *)
(* ===================================================================== *)

Module sample.
Import logrus telegramhook.

(** A client whose transport gives the same answer to every request. *)
Definition answering (answer : string + Body) : Client :=
  mkClient 0 (fun _ => answer).

Definition accepted : apiResponse := mkApiResponse true None None (Some "{}").
Definition unauthorized : apiResponse :=
  mkApiResponse false (Some 401) (Some "Unauthorized") None.
Definition rejected : apiResponse :=
  mkApiResponse false (Some 400)
    (Some "Bad Request: message is 100% too long") None.

Definition hook (c : Client) : TelegramHook :=
  mkHook c "svc" "123456:ABC-def" "@chat" "" ErrorLevel false.

Definition boom : Entry := mkEntry ErrorLevel "boom" {[ "n" := VInt 1 ]}.
Definition traced : Entry := mkEntry TraceLevel "step" ∅.
Definition twoFields : Entry :=
  mkEntry ErrorLevel "boom" (<[ "a" := VInt 1 ]> {[ "b" := VString "<x>" ]}).

Definition quiet : World := mkWorld "" [].

(** The hook at its defaults, with a transport that answers, and with
    one that cannot reach the endpoint. *)
Definition online : TelegramHook := hook (answering (inr (Document accepted))).
Definition offline : TelegramHook :=
  hook (answering (inl "dial tcp: connection refused")).

(** A hook whose [getMe] is answered with [unauthorized] while a POST
    cannot be delivered. *)
Definition getMeRejected : TelegramHook :=
  hook (mkClient 0 (fun req =>
                      match method req with
                      | GET => inr (Document unauthorized)
                      | POST => inl "connection reset by peer"
                      end)).

(** The two messages [createMessage] may return for [twoFields]. *)
Definition aThenB : string :=
  createMessageIn [("a", VInt 1); ("b", VString "<x>")] online twoFields.
Definition bThenA : string :=
  createMessageIn [("b", VString "<x>"); ("a", VInt 1)] online twoFields.

(** The three entities [EscapeString] relies on, out of the table
    [entity] of package html. *)
Definition entity (name : string) : Z :=
  if String.eqb name "amp;" then 38
  else if String.eqb name "lt;" then 60
  else if String.eqb name "gt;" then 62
  else 0.

End sample.

(** ** Predicates used in the statements *)

(** [s] starts with one of the five references [EscapeString] writes. *)
Definition isReference (s : string) : bool :=
  Str.HasPrefix s "&amp;" || Str.HasPrefix s "&#39;" || Str.HasPrefix s "&lt;"
  || Str.HasPrefix s "&gt;" || Str.HasPrefix s "&#34;".

(** Every [&] of [s] starts such a reference. *)
Fixpoint ampersandsAreReferences (s : string) : bool :=
  match s with
  | EmptyString => true
  | String c s' =>
    (negb (Ascii.eqb c "&") || isReference s) && ampersandsAreReferences s'
  end.

(** ** The shape of a message *)

Import logrus telegramhook.

(** The first line of every message. *)
Definition header (h : TelegramHook) (entry : Entry) : string :=
  levelTag (EntryLevel entry) +:+ "@" +:+ AppName h +:+ " - " +:+ Message entry.

(** The lines the loop over the fields appends, each after a line feed. *)
Fixpoint fieldBlock (order : list (string * Value)) : string :=
  match order with
  | [] => ""
  | kv :: rest => LF +:+ html.EscapeString (fieldLine kv) +:+ fieldBlock rest
  end.

(** The label of each level that has a case in the switch. *)
Definition labels : list (logrus.Level * string) :=
  [(PanicLevel, "PANIC"); (FatalLevel, "FATAL"); (ErrorLevel, "ERROR");
   (WarnLevel, "WARNING"); (InfoLevel, "INFO"); (DebugLevel, "DEBUG")].

(** The five bytes [EscapeString] rewrites, or none of them. *)
Inductive escapeCase (c : ascii) : Prop :=
| esc_amp : c = "&"%char -> escapeCase c
| esc_apos : c = "'"%char -> escapeCase c
| esc_lt : c = "<"%char -> escapeCase c
| esc_gt : c = ">"%char -> escapeCase c
| esc_quot : c = Str.byte 34 -> escapeCase c
| esc_other :
    c <> "&"%char -> c <> "<"%char -> c <> ">"%char ->
    html.escapeByte c = String c "" -> escapeCase c.

(** ** The threshold as the spec words it *)

(** "accepts S iff S is at or below T on the ascending order
    trace < debug < info < warn < error < fatal < panic". *)
Definition specAccepts (T S : logrus.Level) : Prop :=
  logrus.severity S <= logrus.severity T.

(** ** The options of the package *)

(** An option built by [WithAsync], [WithTimeout] or [WithLevel]. *)
Inductive provided : Option -> Prop :=
| provided_async (async : bool) : provided (WithAsync async)
| provided_timeout (timeout : Z) : provided (WithTimeout timeout)
| provided_level (level : logrus.Level) : provided (WithLevel level).

(** The provided options other than [WithLevel], and other than
    [WithAsync]. *)
Definition notWithLevel (o : Option) : Prop :=
  (exists async, o = WithAsync async) \/ (exists timeout, o = WithTimeout timeout).
Definition notWithAsync (o : Option) : Prop :=
  (exists level, o = WithLevel level) \/ (exists timeout, o = WithTimeout timeout).


(** The request of [verifyToken] and the request of [sendMessage]. *)
Definition getMeRequest `{GoLib} (h : TelegramHook) : Request :=
  mkRequest GET (JoinPath (ApiEndpoint h) "getMe") "" None.
Definition sendMessageRequest `{GoLib} (h : TelegramHook) (msg : string)
  : Request :=
  mkRequest POST (JoinPath (ApiEndpoint h) "sendMessage") "application/json"
    (Some (mkApiRequest (ChatId h) (ThreadId h) msg "HTML")).


(* ===================================================================== *)
(** * Properties *)
(* ===================================================================== *)

(** ** Strings *)

Lemma append_cons (x : ascii) (a b : string) :
  String x a +:+ b = String x (a +:+ b).
Proof. reflexivity. Qed.

Lemma append_nil_l (a : string) : "" +:+ a = a.
Proof. reflexivity. Qed.

Lemma append_assoc (a b c : string) : (a +:+ b) +:+ c = a +:+ (b +:+ c).
Proof.
  induction a as [|x a IH]; [reflexivity|].
  rewrite !append_cons. f_equal. exact IH.
Qed.

Lemma append_nil_r (a : string) : a +:+ "" = a.
Proof.
  induction a as [|x a IH]; [reflexivity|].
  rewrite append_cons. f_equal. exact IH.
Qed.

Lemma length_append (a b : string) :
  String.length (a +:+ b) = (String.length a + String.length b)%nat.
Proof.
  induction a as [|c a IH]; [reflexivity|].
  rewrite append_cons. cbn [String.length]. now rewrite IH.
Qed.

Lemma Join2 (a b sep : string) : Str.Join [a; b] sep = a +:+ sep +:+ b.
Proof. reflexivity. Qed.

(** ** The fuel of [doPrintf0] *)

Lemma length_drop (n : nat) (s : string) :
  (String.length (Str.drop n s) <= String.length s)%nat.
Proof.
  revert s. induction n as [|n IH]; intros [|c s]; cbn [Str.drop String.length];
    try lia.
  specialize (IH s). lia.
Qed.

Lemma length_skipFlags (s : string) :
  (String.length (fmt.skipFlags s) <= String.length s)%nat.
Proof.
  induction s as [|c s IH]; cbn [fmt.skipFlags String.length]; [lia|].
  destruct (fmt.isFlag c); cbn [String.length]; lia.
Qed.

Lemma length_parsenumLoop (s : string) (num : Z) (isnum : bool) :
  (String.length (snd (fmt.parsenumLoop num isnum s)) <= String.length s)%nat.
Proof.
  revert num isnum. induction s as [|c s IH]; intros num isnum;
    cbn [fmt.parsenumLoop String.length snd]; [lia|].
  destruct (html.between "0" c "9"); cbn [snd String.length]; [|lia].
  destruct (fmt.tooLarge num); cbn [snd String.length]; [lia|].
  specialize (IH (num * 10 + (Str.code c - 48)) true). lia.
Qed.

Lemma length_argNumber (numArgs : Z) (good : bool) (s : string) :
  (String.length (fst (fst (fmt.argNumber numArgs good s))) <= String.length s)%nat.
Proof.
  unfold fmt.argNumber. destruct s as [|c s]; [cbn; lia|].
  destruct (Ascii.eqb c "["); [|cbn; lia].
  destruct (fmt.parseArgNumber (String c s)) as [[index wid] ok].
  destruct (ok && (0 <=? index) && (index <? numArgs)); cbn [fst];
    apply length_drop.
Qed.

Lemma directive_shorter (s out rest : string) :
  fmt.directive s = (out, Some rest) ->
  (String.length rest <= String.length s)%nat.
Proof.
  unfold fmt.directive.
  pose proof (length_skipFlags s) as H0.
  set (s0 := fmt.skipFlags s) in *.
  pose proof (length_argNumber 0 true s0) as H1.
  destruct (fmt.argNumber 0 true s0) as [[s1 after1] good1]. cbn [fst] in H1.
  (* width *)
  assert (Hw : forall X : string * string * bool * bool,
             X = match s1 with
                 | String "*" s' => (fmt.badWidthString, s', false, good1)
                 | _ =>
                   let '(_, widPresent, s') := fmt.parsenum s1 in
                   ("", s', after1, if after1 && widPresent then false else good1)
                 end ->
             (String.length (snd (fst (fst X))) <= String.length s1)%nat).
  { intros X ->.
    assert (Hp : (String.length (snd (fmt.parsenum s1)) <= String.length s1)%nat)
      by apply length_parsenumLoop.
    destruct (fmt.parsenum s1) as [[n1 p1] r1]. cbn [snd] in Hp.
    destruct s1 as [|c1 s1']; [exact Hp|].
    destruct (Ascii.eqb_spec c1 "*") as [->|Hc].
    - cbn [fst snd String.length]. lia.
    - destruct c1 as [[] [] [] [] [] [] [] []]; try exact Hp.
      now contradiction Hc. }
  specialize (Hw _ eq_refl).
  destruct (match s1 with
            | String "*" s' => (fmt.badWidthString, s', false, good1)
            | _ =>
              let '(_, widPresent, s') := fmt.parsenum s1 in
              ("", s', after1, if after1 && widPresent then false else good1)
            end) as [[[out2 s2] after2] good2].
  cbn [fst snd] in Hw.
  (* precision *)
  assert (Hp : forall X : string * string * bool * bool,
             X = match s2 with
                 | String "." s' =>
                   let good := if after2 then false else good2 in
                   let '(s', afterIndex, good) := fmt.argNumber 0 good s' in
                   match s' with
                   | String "*" s'' =>
                     (out2 +:+ fmt.badPrecString, s'', false, good)
                   | _ =>
                     let '(_, _, s'') := fmt.parsenum s' in
                     (out2, s'', afterIndex, good)
                   end
                 | _ => (out2, s2, after2, good2)
                 end ->
             (String.length (snd (fst (fst X))) <= String.length s2)%nat).
  { intros X ->.
    destruct s2 as [|c2 s2']; [cbn; lia|].
    assert (Hdot :
              forall g,
                (String.length
                   (snd (fst (fst
                      (let '(s', afterIndex, good) := fmt.argNumber 0 g s2' in
                       match s' with
                       | String "*" s'' =>
                         (out2 +:+ fmt.badPrecString, s'', false, good)
                       | _ =>
                         let '(_, _, s'') := fmt.parsenum s' in
                         (out2, s'', afterIndex, good)
                       end))))
                 <= String.length s2')%nat).
    { intros g. pose proof (length_argNumber 0 g s2') as Ha.
      destruct (fmt.argNumber 0 g s2') as [[s3 after3] good3]. cbn [fst] in Ha.
      assert (Hq : (String.length (snd (fmt.parsenum s3)) <= String.length s3)%nat)
        by apply length_parsenumLoop.
      destruct (fmt.parsenum s3) as [[n3 p3] r3]. cbn [snd] in Hq.
      destruct s3 as [|c3 s3']; [cbn [fst snd] in *; lia|].
      destruct (Ascii.eqb_spec c3 "*") as [->|Hc].
      - cbn [fst snd String.length] in *. lia.
      - destruct c3 as [[] [] [] [] [] [] [] []];
          try (cbn [fst snd] in *; lia).
        now contradiction Hc. }
    destruct (Ascii.eqb_spec c2 ".") as [->|Hc].
    - cbv zeta. specialize (Hdot (if after2 then false else good2)).
      cbn [String.length]. lia.
    - destruct c2 as [[] [] [] [] [] [] [] []]; try (cbn; lia).
      now contradiction Hc. }
  specialize (Hp _ eq_refl).
  destruct (match s2 with
            | String "." s' => _
            | _ => (out2, s2, after2, good2)
            end) as [[[out3 s3] after3] good3].
  cbn [fst snd] in Hp.
  pose proof (length_argNumber 0 good3 s3) as H4.
  destruct (if after3 then (s3, after3, good3) else fmt.argNumber 0 good3 s3)
    as [[s4 after4] good4] eqn:E4.
  assert (H4' : (String.length s4 <= String.length s3)%nat).
  { destruct after3; [injection E4 as <- _ _; lia|].
    rewrite E4 in H4. exact H4. }
  destruct s4 as [|c4 s4']; [discriminate|].
  destruct (if utf8.RuneSelf <=? Str.code c4
            then utf8.DecodeRuneInString (String c4 s4')
            else (Str.code c4, 1%nat)) as [verb size].
  pose proof (length_drop size (String c4 s4')) as H5.
  intros Hres.
  assert (Hrest : rest = Str.drop size (String c4 s4')).
  { destruct (verb =? 37); [injection Hres as _ <-; reflexivity|].
    destruct (negb good4); injection Hres as _ <-; reflexivity. }
  subst rest. lia.
Qed.

Lemma doPrintf0_fuel_irrelevant (format : string) (fuel1 fuel2 : nat) :
  (String.length format < fuel1)%nat ->
  (String.length format < fuel2)%nat ->
  fmt.doPrintf0 fuel1 format = fmt.doPrintf0 fuel2 format.
Proof.
  remember (String.length format) as n eqn:Hn.
  revert format fuel1 fuel2 Hn.
  induction n as [n IH] using lt_wf_ind. intros format fuel1 fuel2 Hn H1 H2.
  destruct fuel1 as [|fuel1]; [lia|]. destruct fuel2 as [|fuel2]; [lia|].
  destruct format as [|c format]; [reflexivity|].
  cbn [String.length] in Hn. cbn [fmt.doPrintf0].
  destruct (Ascii.eqb c "%").
  - destruct (fmt.directive format) as [out [rest|]] eqn:Ed; [|reflexivity].
    apply directive_shorter in Ed.
    rewrite (IH (String.length rest) ltac:(lia) rest fuel1 fuel2 eq_refl)
      by lia.
    reflexivity.
  - rewrite (IH (String.length format) ltac:(lia) format fuel1 fuel2 eq_refl)
      by lia.
    reflexivity.
Qed.

(** [Sprintf0] gives [doPrintf0] fuel enough to read the whole format:
    more fuel changes nothing. *)
Lemma doPrintf0_fuel (format : string) (fuel : nat) :
  (String.length format < fuel)%nat ->
  fmt.doPrintf0 fuel format = fmt.Sprintf0 format.
Proof.
  intros Hfuel. unfold fmt.Sprintf0.
  apply doPrintf0_fuel_irrelevant; lia.
Qed.

(** ** The fuel of [unescapeLoop] *)

Section UnescapeFuel.
Variable entity : string -> Z.
Variable entity2 : string -> Z * Z.
Variable replacementTable : Z -> Z.

Lemma prefixEntity_progress (entityName : string) (j : nat) (x : Z) (k : nat) :
  html.prefixEntity entity entityName j = Some (x, k) -> (1 <= k)%nat.
Proof.
  induction j as [|j IH]; cbn [html.prefixEntity]; [discriminate|].
  destruct (S j <=? 1)%nat; [discriminate|].
  destruct (negb (entity (Str.take (S j) entityName) =? 0)).
  - intros [= _ <-]. lia.
  - exact IH.
Qed.

Lemma namedEntity_progress (entityName : string) (i : nat) (s : string) :
  (1 <= i)%nat ->
  (1 <= snd (html.namedEntity entity entity2 entityName i s))%nat.
Proof.
  intros Hi. unfold html.namedEntity.
  destruct (String.length entityName =? 0)%nat; [exact Hi|].
  destruct (negb (entity entityName =? 0)); [exact Hi|].
  destruct (negb (fst (entity2 entityName) =? 0)); [exact Hi|].
  destruct (html.prefixEntity entity entityName _) as [[x k]|] eqn:Ep;
    [|exact Hi].
  cbn [snd]. now apply prefixEntity_progress in Ep.
Qed.

(** [unescapeEntity] reads at least the [&]. *)
Lemma unescapeEntity_progress (c : ascii) (s : string) :
  (1 <= snd (html.unescapeEntity entity entity2 replacementTable (String c s)))%nat.
Proof.
  unfold html.unescapeEntity.
  destruct s as [|c1 t1]; [cbn; lia|].
  destruct (Ascii.eqb c1 "#").
  - destruct (String.length (String c (String c1 t1)) <=? 3)%nat; [cbn; lia|].
    destruct (html.scanNumber _ 0 _) as [x n].
    match goal with
    | |- context [(?i <=? 3)%nat] => destruct (Nat.leb_spec i 3)
    end; cbn [snd]; lia.
  - apply namedEntity_progress. lia.
Qed.

Lemma length_drop_lt (k : nat) (c : ascii) (s : string) :
  (1 <= k)%nat ->
  (String.length (Str.drop k (String c s)) <= String.length s)%nat.
Proof.
  destruct k as [|k]; [lia|]. intros _. cbn [Str.drop]. apply length_drop.
Qed.

(** [UnescapeString] gives its loop fuel enough to read the whole string:
    more fuel changes nothing. *)
Lemma unescapeLoop_fuel (s : string) (fuel : nat) :
  (String.length s <= fuel)%nat ->
  html.unescapeLoop entity entity2 replacementTable fuel s
  = html.UnescapeString entity entity2 replacementTable s.
Proof.
  unfold html.UnescapeString.
  assert (Hgen : forall n s f1 f2,
             String.length s = n -> (n <= f1)%nat -> (n <= f2)%nat ->
             html.unescapeLoop entity entity2 replacementTable f1 s
             = html.unescapeLoop entity entity2 replacementTable f2 s).
  { clear s fuel. induction n as [n IH] using lt_wf_ind.
    intros s f1 f2 Hn H1 H2.
    destruct s as [|c s].
    - destruct f1, f2; reflexivity.
    - cbn [String.length] in Hn.
      destruct f1 as [|f1]; [lia|]. destruct f2 as [|f2]; [lia|].
      cbn [html.unescapeLoop].
      destruct (Ascii.eqb c "&").
      + pose proof (unescapeEntity_progress c s) as Hk.
        destruct (html.unescapeEntity entity entity2 replacementTable
                    (String c s)) as [out k].
        cbn [snd] in Hk.
        pose proof (length_drop_lt k c s Hk) as Hd.
        rewrite (IH (String.length (Str.drop k (String c s))) ltac:(lia)
                   (Str.drop k (String c s)) f1 f2 eq_refl) by lia.
        reflexivity.
      + rewrite (IH (String.length s) ltac:(lia) s f1 f2 eq_refl) by lia.
        reflexivity. }
  intros Hfuel. apply (Hgen (String.length s)); [reflexivity | exact Hfuel | lia].
Qed.

End UnescapeFuel.

(** ** The level filter *)

Lemma Levels_in_range (h : TelegramHook) :
  (level h <= TraceLevel)%N ->
  Levels h = Some (take (S (N.to_nat (level h))) AllLevels).
Proof.
  intros Hle. unfold Levels, TraceLevel in *.
  rewrite N.mod_small by lia.
  replace (N.to_nat (level h + 1)) with (S (N.to_nat (level h))) by lia.
  destruct (N.leb_spec (level h + 1) (N.of_nat (length AllLevels))) as [_|Hgt];
    [reflexivity | simpl in Hgt; lia].
Qed.

Lemma existsb_take_AllLevels (n : nat) (l : logrus.Level) :
  (n <= 7)%nat ->
  existsb (N.eqb l) (take n AllLevels) = true <-> (N.to_nat l < n)%nat.
Proof.
  intros Hn. rewrite existsb_exists. split.
  - intros (x & Hin & Heq). apply N.eqb_eq in Heq. subst x.
    apply list_elem_of_In, list_elem_of_lookup in Hin as [i Hi].
    apply lookup_take_Some in Hi as [Hi Hlt].
    assert (Hi7 : (i < 7)%nat) by lia.
    do 7 (destruct i as [|i]; [simpl in Hi; injection Hi as <-;
                               unfold PanicLevel, FatalLevel, ErrorLevel, WarnLevel,
                                 InfoLevel, DebugLevel, TraceLevel; lia|]).
    lia.
  - intros Hlt. exists l. split; [|apply N.eqb_refl].
    apply list_elem_of_In, list_elem_of_lookup. exists (N.to_nat l).
    apply lookup_take_Some. split; [|exact Hlt].
    assert (Hl : (N.to_nat l < 7)%nat) by lia.
    remember (N.to_nat l) as i eqn:Ei.
    do 7 (destruct i as [|i]; [simpl; f_equal;
                               unfold PanicLevel, FatalLevel, ErrorLevel, WarnLevel,
                                 InfoLevel, DebugLevel, TraceLevel; lia|]).
    lia.
Qed.

(** C1, as amended: for a threshold T among the seven levels, [Levels()]
    is the prefix of [AllLevels] that ends at T, and a level S is enabled
    exactly when it is one of the seven levels and at or ABOVE T on the
    ascending severity order trace < ... < panic: the hook is enabled for
    T and everything more severe, from panic down to T. *)
Theorem Levels_threshold_and_more_severe (h : TelegramHook) (S : logrus.Level) :
  (Level h <= TraceLevel)%N ->
  Levels h = Some (take (Datatypes.S (N.to_nat (Level h))) AllLevels) /\
  (enabled h S = true <->
   (S <= TraceLevel)%N /\ severity (Level h) <= severity S).
Proof.
  intros Hle. unfold Level in *. split; [now apply Levels_in_range|].
  unfold enabled. rewrite Levels_in_range by assumption.
  rewrite existsb_take_AllLevels by (unfold TraceLevel in Hle; lia).
  unfold severity, TraceLevel in *. lia.
Qed.

Lemma Levels_threshold_and_more_severe_witness :
  (Level sample.online <= TraceLevel)%N /\
  enabled sample.online FatalLevel = true.
Proof.
  split; [vm_compute; discriminate|].
  apply (Levels_threshold_and_more_severe
           sample.online FatalLevel).
  - vm_compute; discriminate.
  - split; vm_compute; discriminate.
Defined.

(** C1, as the spec words it, fails: with the threshold at error the hook
    is enabled for panic, which is not at or below error on the ascending
    severity order; and it is not enabled for info, which is. *)
Lemma Levels_not_up_to_threshold :
  ~ (enabled sample.online PanicLevel = true
     <-> specAccepts (Level sample.online) PanicLevel) /\
  ~ (enabled sample.online InfoLevel = true
     <-> specAccepts (Level sample.online) InfoLevel).
Proof.
  split; intros [Hto Hfrom].
  - specialize (Hto eq_refl). vm_compute in Hto. apply Hto. reflexivity.
  - assert (Hs : specAccepts ErrorLevel InfoLevel) by (vm_compute; discriminate).
    specialize (Hfrom Hs). vm_compute in Hfrom. discriminate.
Qed.

(** ** The formatter *)

Lemma fold_fieldLines (order : list (string * Value)) (msg : string) :
  fold_left (fun msg kv => Str.Join [msg; html.EscapeString (fieldLine kv)] LF)
    order msg = msg +:+ fieldBlock order.
Proof.
  revert msg. induction order as [|kv rest IH]; intros msg;
    cbn [fold_left fieldBlock].
  - now rewrite append_nil_r.
  - rewrite IH, Join2, !append_assoc. reflexivity.
Qed.

Lemma createMessageIn_unfold order h entry :
  createMessageIn order h entry =
  if (0 <? size (Data entry))%nat
  then header h entry +:+ LF +:+ "<pre>" +:+ fieldBlock order +:+ LF +:+ "</pre>"
  else header h entry.
Proof.
  unfold createMessageIn, header.
  destruct (0 <? size (Data entry))%nat.
  - rewrite fold_fieldLines, !Join2, !append_assoc. reflexivity.
  - rewrite !Join2, !append_assoc. reflexivity.
Qed.

Lemma fieldBlock_app (l1 l2 : list (string * Value)) :
  fieldBlock (l1 ++ l2) = fieldBlock l1 +:+ fieldBlock l2.
Proof.
  induction l1 as [|kv l1 IH]; cbn [fieldBlock app]; [reflexivity|].
  rewrite IH, !append_assoc. reflexivity.
Qed.

Lemma createMessageIn_header order h entry :
  exists rest, createMessageIn order h entry = header h entry +:+ rest.
Proof.
  rewrite createMessageIn_unfold. destruct (0 <? size (Data entry))%nat.
  - eexists. reflexivity.
  - exists "". now rewrite append_nil_r.
Qed.

Lemma rangeOrder_small (m : Fields) (order : list (string * Value)) :
  (size m <= 1)%nat -> rangeOrder m order -> order = map_to_list m.
Proof.
  unfold rangeOrder. intros Hsz Hperm.
  rewrite <- length_map_to_list in Hsz.
  destruct (map_to_list m) as [|kv [|kv' l]]; simpl in Hsz; try lia.
  - now apply Permutation_nil_r.
  - now apply Permutation_singleton_r.
Qed.

(** C8: the switch over the level is a total function without a default:
    a level it has no case for (trace, and any value above it) gets the
    empty label, and the message starts with [@<appName> - <message>]. *)
Theorem createMessage_unmapped_level h entry out :
  (DebugLevel < EntryLevel entry)%N ->
  createMessage h entry out ->
  levelTag (EntryLevel entry) = "" /\
  exists rest, out = "@" +:+ AppName h +:+ " - " +:+ Message entry +:+ rest.
Proof.
  intros Hlvl (order & _ & ->).
  assert (Htag : levelTag (EntryLevel entry) = "").
  { unfold levelTag, PanicLevel, FatalLevel, ErrorLevel, WarnLevel, InfoLevel,
      DebugLevel in *.
    repeat match goal with
           | |- context [N.eqb ?a ?b] =>
             destruct (N.eqb_spec a b); [lia|]
           end.
    reflexivity. }
  split; [exact Htag|].
  destruct (createMessageIn_header order h entry) as [rest ->].
  exists rest. unfold header. rewrite Htag, append_nil_l, !append_assoc.
  reflexivity.
Qed.

Lemma createMessage_unmapped_level_witness :
  exists rest,
    createMessageIn [] sample.online
      sample.traced = "@svc - step" +:+ rest.
Proof.
  destruct (createMessage_unmapped_level
              sample.online
              sample.traced
              (createMessageIn [] sample.online
                 sample.traced)) as [_ [rest Hrest]].
  - vm_compute. reflexivity.
  - exists []. split; [|reflexivity]. unfold rangeOrder.
    vm_compute. constructor.
  - exists rest. exact Hrest.
Defined.

Lemma levelTag_labels (l : logrus.Level) :
  (l <= DebugLevel)%N ->
  exists label, In (l, label) labels /\ levelTag l = "<b>" +:+ label +:+ "</b>".
Proof.
  unfold DebugLevel. intros Hl.
  assert (Hcases : l = PanicLevel \/ l = FatalLevel \/ l = ErrorLevel \/
                   l = WarnLevel \/ l = InfoLevel \/ l = DebugLevel).
  { unfold PanicLevel, FatalLevel, ErrorLevel, WarnLevel, InfoLevel, DebugLevel.
    lia. }
  destruct Hcases as [->|[->|[->|[->|[->| ->]]]]].
  - exists "PANIC". split; [simpl; tauto | reflexivity].
  - exists "FATAL". split; [simpl; tauto | reflexivity].
  - exists "ERROR". split; [simpl; tauto | reflexivity].
  - exists "WARNING". split; [simpl; tauto | reflexivity].
  - exists "INFO". split; [simpl; tauto | reflexivity].
  - exists "DEBUG". split; [simpl; tauto | reflexivity].
Qed.

(** C3: for a level from panic to debug the message begins with
    [<b>LABEL</b>@<appName> - <message>]; and for the application "svc",
    level error, message "boom" and the one field n = 1 the message is the
    header followed by a <pre> block whose line is a tab and [n: 1], so it
    contains "ERROR", "svc", "boom" and "n: 1". *)
Theorem createMessage_label_app_message h entry out :
  (EntryLevel entry <= DebugLevel)%N ->
  createMessage h entry out ->
  (exists label rest,
      In (EntryLevel entry, label) labels /\
      out = "<b>" +:+ label +:+ "</b>@" +:+ AppName h +:+ " - "
              +:+ Message entry +:+ rest) /\
  (AppName h = "svc" -> EntryLevel entry = ErrorLevel ->
   Message entry = "boom" -> Data entry = {[ "n" := VInt 1 ]} ->
   out = "<b>ERROR</b>@svc - boom" +:+ LF +:+ "<pre>" +:+ LF
           +:+ TAB +:+ "n: 1" +:+ LF +:+ "</pre>" /\
   Str.Contains out "ERROR" = true /\ Str.Contains out "svc" = true /\
   Str.Contains out "boom" = true /\ Str.Contains out "n: 1" = true).
Proof.
  intros Hlvl (order & Horder & ->). split.
  - destruct (levelTag_labels _ Hlvl) as (label & Hin & Htag).
    destruct (createMessageIn_header order h entry) as [rest ->].
    exists label, rest. split; [exact Hin|].
    unfold header. rewrite Htag, !append_assoc. reflexivity.
  - intros Happ Hl Hmsg Hdata.
    assert (Hord : order = [("n", VInt 1)]).
    { rewrite Hdata in Horder. unfold rangeOrder in Horder.
      rewrite map_to_list_singleton in Horder.
      now apply Permutation_singleton_r. }
    assert (Hout : createMessageIn order h entry =
                   "<b>ERROR</b>@svc - boom" +:+ LF +:+ "<pre>" +:+ LF
                     +:+ TAB +:+ "n: 1" +:+ LF +:+ "</pre>").
    { rewrite createMessageIn_unfold. unfold header.
      rewrite Hdata, map_size_singleton, Happ, Hl, Hmsg, Hord.
      vm_compute. reflexivity. }
    rewrite Hout. split; [reflexivity|]. vm_compute. auto.
Qed.

Lemma createMessage_label_app_message_witness :
  Str.Contains
    (createMessageIn [("n", VInt 1)]
       sample.online sample.boom)
    "n: 1" = true.
Proof.
  apply (createMessage_label_app_message
           sample.online sample.boom).
  - vm_compute. discriminate.
  - exists [("n", VInt 1)]. split; [|reflexivity].
    unfold rangeOrder, sample.boom. cbn [Data].
    rewrite map_to_list_singleton. reflexivity.
  - reflexivity.
  - reflexivity.
  - reflexivity.
  - reflexivity.
Defined.

(** ** Determinism of the formatter *)

Lemma fieldLines_perm (l1 l2 : list (string * Value)) :
  l1 ≡ₚ l2 ->
  map (fun kv => html.EscapeString (fieldLine kv)) l1
    ≡ₚ map (fun kv => html.EscapeString (fieldLine kv)) l2.
Proof. intros Hp. now apply Permutation_map. Qed.

Lemma fieldBlock_lines (order : list (string * Value)) :
  fieldBlock order =
  String.concat ""
    (map (fun line => LF +:+ line)
       (map (fun kv => html.EscapeString (fieldLine kv)) order)).
Proof.
  induction order as [|kv rest IH]; [reflexivity|].
  cbn [fieldBlock map]. rewrite IH.
  destruct rest as [|kv' rest]; cbn [map String.concat].
  - now rewrite append_nil_r.
  - rewrite !append_assoc. reflexivity.
Qed.

(** C2, as amended: two calls on the same entry and application name agree
    on everything but the order of the field lines, which follows the
    iteration order of the Go map: both outputs are the same first line
    followed, when there are fields, by a <pre> block holding the same
    lines up to a permutation.  With at most one field the two outputs are
    byte-identical. *)
Theorem createMessage_deterministic_up_to_field_order h entry out1 out2 :
  createMessage h entry out1 ->
  createMessage h entry out2 ->
  (exists lines1 lines2,
      lines1 ≡ₚ lines2 /\
      let render lines :=
        if (0 <? size (Data entry))%nat
        then header h entry +:+ LF +:+ "<pre>"
               +:+ String.concat "" (map (fun line => LF +:+ line) lines)
               +:+ LF +:+ "</pre>"
        else header h entry in
      out1 = render lines1 /\ out2 = render lines2) /\
  ((size (Data entry) <= 1)%nat -> out1 = out2).
Proof.
  intros (o1 & Ho1 & ->) (o2 & Ho2 & ->). split.
  - exists (map (fun kv => html.EscapeString (fieldLine kv)) o1),
           (map (fun kv => html.EscapeString (fieldLine kv)) o2).
    split.
    + apply fieldLines_perm. unfold rangeOrder in *. now rewrite Ho1, Ho2.
    + cbv zeta. rewrite !createMessageIn_unfold, !fieldBlock_lines. split; reflexivity.
  - intros Hsz.
    rewrite (rangeOrder_small _ _ Hsz Ho1), (rangeOrder_small _ _ Hsz Ho2).
    reflexivity.
Qed.

Lemma createMessage_deterministic_up_to_field_order_witness :
  createMessageIn [("n", VInt 1)]
    sample.online sample.boom
  = createMessageIn (map_to_list (Data sample.boom))
      sample.online sample.boom.
Proof.
  apply (createMessage_deterministic_up_to_field_order
           sample.online sample.boom).
  - exists [("n", VInt 1)]. split; [|reflexivity].
    unfold rangeOrder, sample.boom. cbn [Data].
    rewrite map_to_list_singleton. reflexivity.
  - exists (map_to_list (Data sample.boom)). split; [|reflexivity].
    unfold rangeOrder. reflexivity.
  - unfold sample.boom. cbn [Data]. rewrite map_size_singleton. lia.
Defined.

(** C2 as stated fails: with the two fields a = 1 and b = "<x>" the loop
    may meet a before b or b before a, and the two messages differ. *)
Lemma createMessage_two_fields_not_deterministic :
  createMessage sample.online sample.twoFields sample.aThenB /\
  createMessage sample.online sample.twoFields sample.bThenA /\
  sample.aThenB <> sample.bThenA.
Proof.
  assert (Hl : map_to_list (Data sample.twoFields)
               ≡ₚ [("a", VInt 1); ("b", VString "<x>")]).
  { unfold sample.twoFields. cbn [Data].
    rewrite map_to_list_insert by reflexivity.
    rewrite map_to_list_singleton. reflexivity. }
  split; [|split].
  - eexists. split; [|reflexivity]. unfold rangeOrder. now rewrite Hl.
  - eexists. split; [|reflexivity]. unfold rangeOrder. rewrite Hl.
    apply perm_swap.
  - vm_compute. discriminate.
Qed.

(** ** Escaping of the field lines *)

Lemma EscapeString_app (a b : string) :
  html.EscapeString (a +:+ b) = html.EscapeString a +:+ html.EscapeString b.
Proof.
  induction a as [|c a IH]; [reflexivity|].
  rewrite append_cons. cbn [html.EscapeString].
  rewrite IH, append_assoc. reflexivity.
Qed.

Lemma escapeByte_cases (c : ascii) : escapeCase c.
Proof.
  unfold html.escapeByte.
  destruct (Ascii.eqb_spec c "&"); [now apply esc_amp|].
  destruct (Ascii.eqb_spec c "'"); [now apply esc_apos|].
  destruct (Ascii.eqb_spec c "<"); [now apply esc_lt|].
  destruct (Ascii.eqb_spec c ">"); [now apply esc_gt|].
  destruct (Ascii.eqb_spec c (Str.byte 34)) as [|Hq]; [now apply esc_quot|].
  apply esc_other; try assumption.
  unfold html.escapeByte.
  repeat match goal with
         | |- context [Ascii.eqb c ?x] =>
           destruct (Ascii.eqb_spec c x); [contradiction|]
         end.
  reflexivity.
Qed.

Lemma eqb_ascii_false (c d : ascii) : c <> d -> Ascii.eqb c d = false.
Proof. intros Hne. now destruct (Ascii.eqb_spec c d). Qed.

Lemma EscapeString_no_angle (s : string) :
  Str.HasByte (html.EscapeString s) "<" = false /\
  Str.HasByte (html.EscapeString s) ">" = false.
Proof.
  induction s as [|c s [IHlt IHgt]]; [split; reflexivity|].
  cbn [html.EscapeString].
  destruct (escapeByte_cases c) as [-> | -> | -> | -> | -> | Hamp Hlt Hgt ->];
    try (split; [exact IHlt | exact IHgt]).
  rewrite append_cons, append_nil_l. cbn [Str.HasByte].
  rewrite (eqb_ascii_false _ _ Hlt), (eqb_ascii_false _ _ Hgt).
  split; assumption.
Qed.

Lemma EscapeString_ampersands (s : string) :
  ampersandsAreReferences (html.EscapeString s) = true.
Proof.
  induction s as [|c s IH]; [reflexivity|].
  cbn [html.EscapeString].
  destruct (escapeByte_cases c) as [-> | -> | -> | -> | -> | Hamp Hlt Hgt ->];
    try exact IH.
  rewrite append_cons, append_nil_l. cbn [ampersandsAreReferences].
  rewrite (eqb_ascii_false _ _ Hamp), IH. reflexivity.
Qed.

Section Unescape.
Variable entity : string -> Z.
Variable entity2 : string -> Z * Z.
Variable replacementTable : Z -> Z.

Hypothesis entity_amp : entity "amp;" = 38.
Hypothesis entity_lt : entity "lt;" = 60.
Hypothesis entity_gt : entity "gt;" = 62.

Abbreviation unescapeEntity := (html.unescapeEntity entity entity2 replacementTable).
Abbreviation unescapeLoop := (html.unescapeLoop entity entity2 replacementTable).
Abbreviation UnescapeString := (html.UnescapeString entity entity2 replacementTable).

Lemma unescapeEntity_amp (r : string) :
  unescapeEntity ("&amp;" +:+ r) = ("&", 5%nat).
Proof.
  change (unescapeEntity ("&amp;" +:+ r))
    with (html.namedEntity entity entity2 "amp;" 5 ("&amp;" +:+ r)).
  unfold html.namedEntity. rewrite entity_amp. reflexivity.
Qed.

Lemma unescapeEntity_lt (r : string) :
  unescapeEntity ("&lt;" +:+ r) = ("<", 4%nat).
Proof.
  change (unescapeEntity ("&lt;" +:+ r))
    with (html.namedEntity entity entity2 "lt;" 4 ("&lt;" +:+ r)).
  unfold html.namedEntity. rewrite entity_lt. reflexivity.
Qed.

Lemma unescapeEntity_gt (r : string) :
  unescapeEntity ("&gt;" +:+ r) = (">", 4%nat).
Proof.
  change (unescapeEntity ("&gt;" +:+ r))
    with (html.namedEntity entity entity2 "gt;" 4 ("&gt;" +:+ r)).
  unfold html.namedEntity. rewrite entity_gt. reflexivity.
Qed.

Lemma unescapeEntity_apos (r : string) :
  unescapeEntity ("&#39;" +:+ r) = ("'", 5%nat).
Proof. reflexivity. Qed.

Lemma unescapeEntity_quot (r : string) :
  unescapeEntity ("&#34;" +:+ r) = (String (Str.byte 34) "", 5%nat).
Proof. reflexivity. Qed.

Lemma unescapeLoop_reference (fuel : nat) (ref r out : string) (k : nat) :
  Str.HasPrefix ref "&" = true ->
  unescapeEntity (ref +:+ r) = (out, k) ->
  Str.drop k (ref +:+ r) = r ->
  unescapeLoop (S fuel) (ref +:+ r) = out +:+ unescapeLoop fuel r.
Proof.
  intros Hamp Hent Hdrop.
  destruct ref as [|c ref]; [discriminate|].
  cbn [Str.HasPrefix] in Hamp.
  destruct (Ascii.eqb_spec "&" c) as [<-|]; [|discriminate].
  rewrite append_cons in *. cbn [html.unescapeLoop].
  rewrite Ascii.eqb_refl, Hent, Hdrop. reflexivity.
Qed.

Lemma unescapeLoop_EscapeString (s : string) (fuel : nat) :
  (String.length (html.EscapeString s) <= fuel)%nat ->
  unescapeLoop fuel (html.EscapeString s) = s.
Proof.
  revert fuel. induction s as [|c s IH]; intros fuel Hfuel.
  - destruct fuel; reflexivity.
  - cbn [html.EscapeString] in *. rewrite length_append in Hfuel.
    destruct (escapeByte_cases c) as [-> | -> | -> | -> | -> | Hamp Hlt Hgt Hc].
    + change (html.escapeByte "&") with "&amp;" in *.
      destruct fuel as [|fuel]; [cbn in Hfuel; lia|].
      rewrite (unescapeLoop_reference fuel "&amp;" (html.EscapeString s) "&" 5
                 eq_refl (unescapeEntity_amp _) eq_refl).
      rewrite IH by (cbn in Hfuel; lia). reflexivity.
    + change (html.escapeByte "'") with "&#39;" in *.
      destruct fuel as [|fuel]; [cbn in Hfuel; lia|].
      rewrite (unescapeLoop_reference fuel "&#39;" (html.EscapeString s) "'" 5
                 eq_refl (unescapeEntity_apos _) eq_refl).
      rewrite IH by (cbn in Hfuel; lia). reflexivity.
    + change (html.escapeByte "<") with "&lt;" in *.
      destruct fuel as [|fuel]; [cbn in Hfuel; lia|].
      rewrite (unescapeLoop_reference fuel "&lt;" (html.EscapeString s) "<" 4
                 eq_refl (unescapeEntity_lt _) eq_refl).
      rewrite IH by (cbn in Hfuel; lia). reflexivity.
    + change (html.escapeByte ">") with "&gt;" in *.
      destruct fuel as [|fuel]; [cbn in Hfuel; lia|].
      rewrite (unescapeLoop_reference fuel "&gt;" (html.EscapeString s) ">" 4
                 eq_refl (unescapeEntity_gt _) eq_refl).
      rewrite IH by (cbn in Hfuel; lia). reflexivity.
    + change (html.escapeByte (Str.byte 34)) with "&#34;" in *.
      destruct fuel as [|fuel]; [cbn in Hfuel; lia|].
      rewrite (unescapeLoop_reference fuel "&#34;" (html.EscapeString s) (String (Str.byte 34) "") 5
                 eq_refl (unescapeEntity_quot _) eq_refl).
      rewrite IH by (cbn in Hfuel; lia). reflexivity.
    + rewrite Hc in *. rewrite append_cons, append_nil_l in *.
      destruct fuel as [|fuel]; [cbn in Hfuel; lia|].
      cbn [html.unescapeLoop]. rewrite (eqb_ascii_false _ _ Hamp).
      rewrite IH by (cbn in Hfuel; lia). reflexivity.
Qed.

(** [html.UnescapeString(html.EscapeString(s)) == s]. *)
Lemma UnescapeString_EscapeString (s : string) :
  UnescapeString (html.EscapeString s) = s.
Proof. unfold html.UnescapeString. now apply unescapeLoop_EscapeString. Qed.

End Unescape.

Lemma HasByte_app (a b : string) (c : ascii) :
  Str.HasByte (a +:+ b) c = Str.HasByte a c || Str.HasByte b c.
Proof.
  induction a as [|x a IH]; [reflexivity|].
  rewrite append_cons. cbn [Str.HasByte]. rewrite IH. now rewrite orb_assoc.
Qed.

Lemma HasPrefix_app (p s t : string) :
  Str.HasPrefix s p = true -> Str.HasPrefix (s +:+ t) p = true.
Proof.
  revert s. induction p as [|a p IH]; intros s; [reflexivity|].
  destruct s as [|b s]; [discriminate|].
  rewrite append_cons. cbn [Str.HasPrefix].
  destruct (Ascii.eqb a b); [apply IH | discriminate].
Qed.

Lemma isReference_app (s t : string) :
  isReference s = true -> isReference (s +:+ t) = true.
Proof.
  unfold isReference. rewrite !orb_true_iff.
  intros [[[[Hp|Hp]|Hp]|Hp]|Hp]; apply (HasPrefix_app _ _ t) in Hp; auto.
Qed.

Lemma ampersandsAreReferences_app (s t : string) :
  ampersandsAreReferences s = true -> ampersandsAreReferences t = true ->
  ampersandsAreReferences (s +:+ t) = true.
Proof.
  intros Hs Ht. induction s as [|c s IH]; [exact Ht|].
  cbn [ampersandsAreReferences] in Hs. apply andb_true_iff in Hs as [Hc Hs].
  rewrite append_cons. cbn [ampersandsAreReferences].
  rewrite <- append_cons. apply andb_true_iff. split; [|now apply IH].
  apply orb_true_iff in Hc as [Hc|Hc]; apply orb_true_iff; [now left|right].
  now apply isReference_app.
Qed.

Lemma fieldBlock_no_markup (order : list (string * Value)) :
  Str.HasByte (fieldBlock order) "<" = false /\
  Str.HasByte (fieldBlock order) ">" = false /\
  ampersandsAreReferences (fieldBlock order) = true.
Proof.
  induction order as [|kv order (IHlt & IHgt & IHamp)];
    [repeat split|].
  cbn [fieldBlock].
  destruct (EscapeString_no_angle (fieldLine kv)) as [Hlt Hgt].
  rewrite !HasByte_app, Hlt, Hgt, IHlt, IHgt.
  repeat split.
  change (LF +:+ ?x) with (String (Str.byte 10) x).
  cbn [ampersandsAreReferences].
  change (Ascii.eqb (Str.byte 10) "&") with false. cbn [negb orb andb].
  apply ampersandsAreReferences_app; [apply EscapeString_ampersands | exact IHamp].
Qed.

Lemma lookup_in_rangeOrder (m : Fields) order k v :
  m !! k = Some v -> rangeOrder m order ->
  (0 <? size m)%nat = true /\ exists l1 l2, order = l1 ++ (k, v) :: l2.
Proof.
  intros Hk Hord. unfold rangeOrder in Hord.
  assert (Hin : (k, v) ∈ order).
  { rewrite Hord. now apply elem_of_map_to_list. }
  split.
  - apply Nat.ltb_lt. rewrite <- length_map_to_list, <- Hord.
    destruct order; [inversion Hin | simpl; lia].
  - now apply list_elem_of_split.
Qed.

(** C4: for a field [k: v] of the entry the message is, byte for byte,
    the first line, [<pre>], the lines of the other fields, the line of
    this field and [</pre>], each line after a line feed; the line of the
    field is the escaped text of a tab, the key and [: ] followed by the
    escaped text of the value, and it is there once.  Between [<pre>] and
    [</pre>] no [<] and no [>] occurs and every [&] starts one of the
    references [&amp; &#39; &lt; &gt; &#34;], so no occurrence of these
    bytes in a value is left as it was; and [html.UnescapeString] gives
    back the text of the value (and of the whole line) byte for byte. *)
Theorem createMessage_escapes_field_values
    (entity : string -> Z) (entity2 : string -> Z * Z)
    (replacementTable : Z -> Z) h entry out k v :
  entity "amp;" = 38 -> entity "lt;" = 60 -> entity "gt;" = 62 ->
  Data entry !! k = Some v ->
  createMessage h entry out ->
  let escaped := html.EscapeString (fmt.plus_v v) in
  (exists before after,
      before ++ (k, v) :: after ≡ₚ map_to_list (Data entry) /\
      let block :=
        fieldBlock before
          +:+ LF +:+ html.EscapeString (TAB +:+ k +:+ ": ") +:+ escaped
          +:+ fieldBlock after in
      out = levelTag (EntryLevel entry) +:+ "@" +:+ AppName h +:+ " - "
              +:+ Message entry
              +:+ LF +:+ "<pre>" +:+ block +:+ LF +:+ "</pre>" /\
      Str.HasByte block "<" = false /\
      Str.HasByte block ">" = false /\
      ampersandsAreReferences block = true) /\
  Str.HasByte escaped "<" = false /\
  Str.HasByte escaped ">" = false /\
  ampersandsAreReferences escaped = true /\
  html.UnescapeString entity entity2 replacementTable escaped = fmt.plus_v v /\
  html.UnescapeString entity entity2 replacementTable
    (html.EscapeString (fieldLine (k, v))) = fieldLine (k, v).
Proof.
  intros Hamp Hlt Hgt Hk (order & Hord & ->) escaped.
  destruct (lookup_in_rangeOrder _ _ _ _ Hk Hord) as (Hsz & l1 & l2 & ->).
  split; [|split; [|split; [|split; [|split]]]].
  - exists l1, l2. split; [exact Hord|]. cbv zeta.
    assert (Hblock :
              fieldBlock (l1 ++ (k, v) :: l2)
              = fieldBlock l1
                  +:+ LF +:+ html.EscapeString (TAB +:+ k +:+ ": ")
                  +:+ escaped +:+ fieldBlock l2).
    { rewrite fieldBlock_app. cbn [fieldBlock]. unfold fieldLine.
      cbn [fst snd].
      replace (TAB +:+ k +:+ ": " +:+ fmt.plus_v v)
        with ((TAB +:+ k +:+ ": ") +:+ fmt.plus_v v)
        by (rewrite !append_assoc; reflexivity).
      rewrite EscapeString_app. fold escaped.
      rewrite !append_assoc. reflexivity. }
    rewrite <- Hblock. split; [|apply fieldBlock_no_markup].
    rewrite createMessageIn_unfold, Hsz. unfold header.
    rewrite !append_assoc. reflexivity.
  - apply EscapeString_no_angle.
  - apply EscapeString_no_angle.
  - apply EscapeString_ampersands.
  - now apply UnescapeString_EscapeString.
  - now apply UnescapeString_EscapeString.
Qed.

Lemma createMessage_escapes_field_values_witness :
  html.UnescapeString sample.entity (fun _ => (0, 0)) (fun x => x)
    (html.EscapeString (fmt.plus_v (VString "<x>"))) = "<x>" /\
  exists before after,
    before ++ ("b", VString "<x>") :: after
      ≡ₚ map_to_list (Data sample.twoFields) /\
    sample.aThenB
    = "<b>ERROR</b>@svc - boom" +:+ LF +:+ "<pre>"
        +:+ (fieldBlock before +:+ LF +:+ TAB +:+ "b: &lt;x&gt;"
               +:+ fieldBlock after)
        +:+ LF +:+ "</pre>".
Proof.
  destruct (createMessage_escapes_field_values sample.entity (fun _ => (0, 0))
              (fun x => x) sample.online sample.twoFields sample.aThenB
              "b" (VString "<x>") eq_refl eq_refl eq_refl)
    as ((before & after & Hperm & Hout & _) & _ & _ & _ & Hvalue & _).
  - vm_compute. reflexivity.
  - exists [("a", VInt 1); ("b", VString "<x>")]. split; [|reflexivity].
    unfold rangeOrder, sample.twoFields. cbn [Data].
    rewrite map_to_list_insert by reflexivity.
    rewrite map_to_list_singleton. reflexivity.
  - split; [exact Hvalue|].
    exists before, after. split; [exact Hperm|].
    rewrite Hout. rewrite !append_assoc. reflexivity.
Defined.

(** ** Delivery *)

Section DeliveryProperties.
Context `{GoLib}.

Lemma sendMessage_only_writes h msg w :
  exists text,
    snd (sendMessage h msg w) = mkWorld (stderr w +:+ text) (goroutines w).
Proof.
  unfold sendMessage, Post, do.
  destruct (Transport (client h) _) as [cause|[why|r]].
  - eexists. reflexivity.
  - exists "". cbn. rewrite append_nil_r. now destruct w.
  - exists "". cbn [Decode].
    destruct (negb (Ok r)); cbn; rewrite append_nil_r; now destruct w.
Qed.

(** C5: in asynchronous mode [Fire] returns nil whatever the transport
    of the hook does: it starts one goroutine for the send and writes
    nothing.  The goroutine, whenever it runs and on whatever state of
    the hook, gives no result to anyone; it can only add text to
    os.Stderr. *)
Theorem Fire_async_returns_nil order h entry w :
  Async h = true ->
  Fire order h entry w =
    (None, mkWorld (stderr w)
             (goroutines w ++ [createMessageIn order h entry])) /\
  (forall h' w', exists text,
      runGoroutine h' (createMessageIn order h entry) w' =
        (tt, mkWorld (stderr w' +:+ text) (goroutines w'))).
Proof.
  intros Hasync. split.
  - unfold Fire. rewrite Hasync. reflexivity.
  - intros h' w'.
    destruct (sendMessage_only_writes h' (createMessageIn order h entry) w')
      as [text Htext].
    exists text. unfold runGoroutine, mbind, M_bind, mret, M_ret.
    destruct (sendMessage h' (createMessageIn order h entry) w') as [r w''].
    cbn in Htext. now rewrite Htext.
Qed.

(** In synchronous mode a response with [ok = false] makes [Fire] return
    the error [fmt.Errorf(msg)] and write it to os.Stderr; [msg], which
    holds the error code and the description, is the FORMAT of that
    call. *)
Lemma Fire_sync_error_response order h entry w r :
  Async h = false ->
  Transport (client h)
    (mkRequest POST (JoinPath (ApiEndpoint h) "sendMessage")
       "application/json"
       (Some (mkApiRequest (ChatId h) (ThreadId h)
                (createMessageIn order h entry) "HTML"))) = inr (Document r) ->
  Ok r = false ->
  Fire order h entry w =
    (Some (errorString (fmt.Sprintf0 (errorResponseText r))),
     mkWorld (stderr w +:+ "Unable to send message, "
                +:+ fmt.Sprintf0 (errorResponseText r))
             (goroutines w)).
Proof.
  intros Hsync Hrt Hok. unfold Fire. rewrite Hsync.
  unfold mbind, M_bind, sendMessage, Post, do. rewrite Hrt. cbn [Decode].
  rewrite Hok. reflexivity.
Qed.

End DeliveryProperties.

Lemma Fire_async_returns_nil_witness :
  @Fire plain.lib [("n", VInt 1)] (SetAsync true sample.offline) sample.boom
    sample.quiet
  = (None,
     mkWorld ""
       [createMessageIn [("n", VInt 1)] (SetAsync true sample.offline)
          sample.boom]).
Proof.
  apply (@Fire_async_returns_nil plain.lib [("n", VInt 1)]
           (SetAsync true sample.offline) sample.boom sample.quiet).
  reflexivity.
Defined.

Lemma doPrintf0_no_percent (format : string) (fuel : nat) :
  Str.HasByte format "%" = false ->
  (String.length format <= fuel)%nat ->
  fmt.doPrintf0 (S fuel) format = format.
Proof.
  revert fuel. induction format as [|c format IH]; intros fuel Hp Hfuel.
  - reflexivity.
  - cbn [Str.HasByte] in Hp. apply orb_false_iff in Hp as [Hc Hrest].
    cbn [fmt.doPrintf0]. rewrite Hc.
    destruct fuel as [|fuel]; [cbn in Hfuel; lia|].
    rewrite IH; [reflexivity | exact Hrest | cbn in Hfuel; lia].
Qed.

(** A format without [%] is printed as it is. *)
Lemma Sprintf0_no_percent (format : string) :
  Str.HasByte format "%" = false -> fmt.Sprintf0 format = format.
Proof. intros Hp. unfold fmt.Sprintf0. now apply doPrintf0_no_percent. Qed.

Lemma string_of_uint_no_percent (d : Decimal.uint) :
  Str.HasByte (NilEmpty.string_of_uint d) "%" = false.
Proof. induction d; cbn [NilEmpty.string_of_uint Str.HasByte]; auto. Qed.

Lemma Itoa_no_percent (z : Z) : Str.HasByte (Str.Itoa z) "%" = false.
Proof.
  unfold Str.Itoa, NilZero.string_of_int, NilZero.string_of_uint.
  destruct (Z.to_int z) as [d|d]; destruct d; try reflexivity;
    cbn [Str.HasByte]; try apply string_of_uint_no_percent;
    rewrite ?orb_false_l; apply (string_of_uint_no_percent (_ d)).
Qed.

(** When the description holds no [%], the error [sendMessage] returns
    reads as the message built from the code and the description. *)
Lemma errorResponse_text_kept (r : apiResponse) :
  match Desc r with
  | Some desc => Str.HasByte desc "%" = false
  | None => True
  end ->
  fmt.Sprintf0 (errorResponseText r) = errorResponseText r.
Proof.
  intros Hdesc. apply Sprintf0_no_percent. unfold errorResponseText.
  destruct (ErrorCode r) as [code|], (Desc r) as [desc|];
    rewrite ?HasByte_app, ?Itoa_no_percent, ?Hdesc; reflexivity.
Qed.

(** C6 fails on a description that holds a [%]: for the response
    [{ok: false, error_code: 400, description: "Bad Request: message is
    100% too long"}] the error returned by [Fire] in synchronous mode, and
    written to os.Stderr, reads [...100%!t(MISSING)oo long]: the description
    is not in it. *)
Lemma Fire_sync_description_with_percent :
  @Fire plain.lib [("n", VInt 1)]
    (sample.hook (sample.answering (inr (Document sample.rejected))))
    sample.boom sample.quiet =
  (Some (errorString
           "Received error response from Telegram API (error code 400): Bad Request: message is 100%!t(MISSING)oo long"),
   mkWorld
     "Unable to send message, Received error response from Telegram API (error code 400): Bad Request: message is 100%!t(MISSING)oo long"
     []) /\
  Str.Contains
    "Received error response from Telegram API (error code 400): Bad Request: message is 100%!t(MISSING)oo long"
    "Bad Request: message is 100% too long" = false.
Proof. split; vm_compute; reflexivity. Qed.

(** ** Construction and the remote calls *)

Section RemoteProperties.
Context `{GoLib}.

(** C7: when the identity check fails, whether the round trip fails, the
    body cannot be decoded or the response has [ok = false], construction
    returns a nil hook and the error.  For [ok = false] the text of the
    error is the fixed sentence, then the error code and the description
    when the response has them, then the response as indented JSON; with
    neither it is the sentence and the JSON. *)
Theorem NewTelegramHookWithClient_fails_with_check
    (appName authToken chatId threadId : string) (c : Client)
    (options : list Option) (answer : string + Body) :
  let h := applyOptions options
             (mkHook c appName authToken chatId threadId ErrorLevel false) in
  Transport (client h)
    (mkRequest GET (JoinPath (ApiEndpoint h) "getMe") "" None) = answer ->
  match answer with inr (Document r) => Ok r = false | _ => True end ->
  exists err,
    NewTelegramHookWithClient appName authToken chatId threadId c options
      = (None, Some err) /\
    match answer with
    | inl cause =>
      err = url_Error "Get" (JoinPath (ApiEndpoint h) "getMe") cause
    | inr (Malformed why) => err = json_Error why
    | inr (Document r) =>
      Error err =
        "Received error response from Telegram API"
          +:+ match ErrorCode r with
              | Some code => " (error code " +:+ Str.Itoa code +:+ ")"
              | None => ""
              end
          +:+ match Desc r with
              | Some desc => ": " +:+ desc
              | None => ""
              end
          +:+ LF +:+ MarshalIndent r
    end.
Proof.
  intros h Hrt Hfail.
  unfold NewTelegramHookWithClient, verifyToken, Get, do.
  cbv zeta. fold h. rewrite Hrt.
  destruct answer as [cause|[why|r]]; cbn [Decode].
  - eexists. split; reflexivity.
  - eexists. split; reflexivity.
  - rewrite Hfail. cbn [negb]. eexists. split; [reflexivity|].
    cbn [Error]. unfold errorResponseText.
    destruct (ErrorCode r), (Desc r);
      rewrite ?append_assoc, ?append_nil_l; reflexivity.
Qed.

(** A failed round trip: both remote calls hand back the client's
    [*url.Error], which carries the request URL, and [sendMessage] prints
    it. *)
Lemma verifyToken_transport_failure (h : TelegramHook) (cause : string) :
  Transport (client h)
    (mkRequest GET (JoinPath (ApiEndpoint h) "getMe") "" None) = inl cause ->
  verifyToken h
  = Some (url_Error "Get" (JoinPath (ApiEndpoint h) "getMe") cause).
Proof. intros Ht. unfold verifyToken, Get, do. now rewrite Ht. Qed.

Lemma sendMessage_transport_failure (h : TelegramHook) (msg cause : string) w :
  Transport (client h)
    (mkRequest POST (JoinPath (ApiEndpoint h) "sendMessage")
       "application/json"
       (Some (mkApiRequest (ChatId h) (ThreadId h) msg "HTML"))) = inl cause ->
  let err := url_Error "Post" (JoinPath (ApiEndpoint h) "sendMessage") cause in
  sendMessage h msg w
  = (Some err,
     mkWorld
       (stderr w
          +:+ "Encountered error when issuing request to Telegram API, "
          +:+ Error err)
       (goroutines w)).
Proof. intros Ht err. unfold sendMessage, Post, do. now rewrite Ht. Qed.

Lemma createMessageIn_SetAuthToken order tok h entry :
  createMessageIn order (SetAuthToken tok h) entry = createMessageIn order h entry.
Proof. reflexivity. Qed.

(** C9, as amended: when a remote call fails in any way other than the
    HTTP round trip itself (a response with [ok = false], or a body the
    decoder rejects), the error it returns and the text it writes to
    os.Stderr do not depend on the credential.  Call by call: a hook that
    differs only in its token and gets the same response to its [getMe]
    request returns the same from [verifyToken]; one that gets the same
    response to its [sendMessage] request returns the same from
    [sendMessage] and from [Fire] and leaves the same text on os.Stderr;
    an asynchronous [Fire] does not depend on the token at all. *)
Theorem remote_failure_independent_of_credential
    (h : TelegramHook) (token' : string) (w : World) :
  let h' := SetAuthToken token' h in
  (forall answer,
      Transport (client h) (getMeRequest h) = inr answer ->
      Transport (client h) (getMeRequest h') = inr answer ->
      verifyToken h = verifyToken h') /\
  (forall msg answer,
      Transport (client h) (sendMessageRequest h msg) = inr answer ->
      Transport (client h) (sendMessageRequest h' msg) = inr answer ->
      sendMessage h msg w = sendMessage h' msg w) /\
  (forall order entry answer,
      Transport (client h)
        (sendMessageRequest h (createMessageIn order h entry)) = inr answer ->
      Transport (client h)
        (sendMessageRequest h' (createMessageIn order h entry)) = inr answer ->
      Fire order h entry w = Fire order h' entry w) /\
  (forall order entry,
      Async h = true -> Fire order h entry w = Fire order h' entry w).
Proof.
  intros h'.
  assert (Hsend : forall msg answer,
             Transport (client h) (sendMessageRequest h msg) = inr answer ->
             Transport (client h) (sendMessageRequest h' msg) = inr answer ->
             sendMessage h msg w = sendMessage h' msg w).
  { intros msg answer HP HP'.
    unfold sendMessage, Post, do. change (client h') with (client h).
    fold (sendMessageRequest h msg) (sendMessageRequest h' msg).
    rewrite HP, HP'. reflexivity. }
  split; [|split; [exact Hsend|split]].
  - intros answer HG HG'.
    unfold verifyToken, Get, do. change (client h') with (client h).
    fold (getMeRequest h) (getMeRequest h'). rewrite HG, HG'. reflexivity.
  - intros order entry answer HP HP'.
    unfold Fire. change (Async h') with (Async h).
    unfold h' at 1. rewrite createMessageIn_SetAuthToken.
    destruct (Async h); [reflexivity|].
    unfold mbind, M_bind. rewrite (Hsend _ _ HP HP'). reflexivity.
  - intros order entry Hasync.
    unfold Fire. change (Async h') with (Async h).
    unfold h'. rewrite createMessageIn_SetAuthToken, Hasync. reflexivity.
Qed.

(** C10: a hook built without options has the level error and is
    synchronous: [Levels()] is panic, fatal, error, and [Fire] starts no
    goroutine and returns what the inline [sendMessage] returns. *)
Theorem NewTelegramHookWithClient_defaults
    (appName authToken chatId threadId : string) (c : Client)
    (h : TelegramHook) :
  NewTelegramHookWithClient appName authToken chatId threadId c []
    = (Some h, None) ->
  Level h = ErrorLevel /\
  Levels h = Some [PanicLevel; FatalLevel; ErrorLevel] /\
  Async h = false /\
  forall order entry w,
    goroutines (snd (Fire order h entry w)) = goroutines w /\
    fst (Fire order h entry w)
      = fst (sendMessage h (createMessageIn order h entry) w).
Proof.
  unfold NewTelegramHookWithClient, applyOptions. cbn [fold_left].
  destruct (verifyToken _); intros Hnew; [discriminate|].
  injection Hnew as <-.
  split; [reflexivity|]. split; [reflexivity|]. split; [reflexivity|].
  intros order entry w. unfold Fire. cbn [Async async].
  unfold mbind, M_bind.
  set (msg := createMessageIn order _ entry).
  set (hk := mkHook c appName authToken chatId threadId ErrorLevel false).
  destruct (sendMessage_only_writes hk msg w) as [text Htext].
  destruct (sendMessage hk msg w) as [[err|] w'];
    cbn [fst snd] in *; subst w'; split; reflexivity.
Qed.

End RemoteProperties.

Lemma NewTelegramHookWithClient_fails_with_check_witness :
  exists err,
    @NewTelegramHookWithClient plain.lib "svc" "000000:wrong" "@chat" ""
      (sample.answering (inr (Document sample.unauthorized))) [WithAsync true]
      = (None, Some err) /\
    Str.Contains (@Error plain.lib err) "(error code 401): Unauthorized" = true.
Proof.
  destruct (@NewTelegramHookWithClient_fails_with_check plain.lib
              "svc" "000000:wrong" "@chat" ""
              (sample.answering (inr (Document sample.unauthorized))) [WithAsync true]
              (inr (Document sample.unauthorized)) eq_refl eq_refl)
    as (err & Hnew & Htext).
  exists err. split; [exact Hnew|].
  rewrite Htext. vm_compute. reflexivity.
Defined.

Lemma remote_failure_independent_of_credential_witness :
  @verifyToken plain.lib sample.getMeRejected
  = @verifyToken plain.lib (SetAuthToken "000000:other" sample.getMeRejected).
Proof.
  destruct (@remote_failure_independent_of_credential plain.lib
              sample.getMeRejected "000000:other" sample.quiet)
    as (Hverify & _).
  apply (Hverify (Document sample.unauthorized)); reflexivity.
Defined.

Lemma NewTelegramHookWithClient_defaults_witness :
  @NewTelegramHookWithClient plain.lib "svc" "123456:ABC-def" "@chat" ""
    (sample.answering (inr (Document sample.accepted))) [] = (Some sample.online, None) /\
  Levels sample.online = Some [PanicLevel; FatalLevel; ErrorLevel].
Proof.
  split; [reflexivity|].
  apply (@NewTelegramHookWithClient_defaults plain.lib
           "svc" "123456:ABC-def" "@chat" ""
           (sample.answering (inr (Document sample.accepted))) sample.online).
  reflexivity.
Defined.

(** C9 as stated fails: when the endpoint cannot be reached, the error
    [verifyToken] returns is the [*url.Error] of the HTTP client, whose text
    quotes the request URL and with it the token; [sendMessage] and [Fire]
    write the same text to os.Stderr. *)
Lemma credential_in_transport_error :
  @verifyToken plain.lib sample.offline
    = Some (url_Error "Get" "https://api.telegram.org/bot123456:ABC-def/getMe"
              "dial tcp: connection refused") /\
  Str.Contains
    (@Error plain.lib
       (url_Error "Get" "https://api.telegram.org/bot123456:ABC-def/getMe"
          "dial tcp: connection refused"))
    (AuthToken sample.offline) = true /\
  Str.Contains
    (stderr (snd (@Fire plain.lib [("n", VInt 1)] sample.offline sample.boom
                    sample.quiet)))
    (AuthToken sample.offline) = true.
Proof. repeat split; vm_compute; reflexivity. Qed.

(* ===================================================================== *)
(** * Further properties of the hook *)
(* ===================================================================== *)

(** ** The bounds of [Levels] *)

(** X1: [Levels] indexes [AllLevels] with [h.level+1] without a check.
    For a level above trace the slice bound exceeds the capacity and the
    call panics, except for the largest uint32, where [level+1] wraps to 0
    and the result is the empty slice: the hook is then enabled for
    nothing. *)
Theorem Levels_panics_above_trace (h : TelegramHook) :
  (Level h < 4294967296)%N ->
  (Levels h = None <->
   (TraceLevel < Level h)%N /\ (Level h < 4294967295)%N) /\
  (Level h = 4294967295%N -> Levels h = Some []).
Proof.
  unfold Level, Levels, TraceLevel. intros Hlt.
  change (N.of_nat (length AllLevels)) with 7%N.
  destruct (N.eq_dec (level h) 4294967295%N) as [Hmax|Hmax].
  - rewrite Hmax. change ((4294967295 + 1) mod 4294967296)%N with 0%N.
    split; [|reflexivity]. cbn. split; [discriminate | lia].
  - rewrite N.mod_small by lia. split; [|intros; contradiction].
    destruct (N.leb_spec (level h + 1) 7); split;
      try discriminate; try lia; reflexivity.
Qed.

Lemma Levels_panics_above_trace_witness :
  Levels (SetLevel 7%N sample.online) = None /\
  Levels (SetLevel 4294967295%N sample.online) = Some [].
Proof.
  split.
  - apply (Levels_panics_above_trace (SetLevel 7%N sample.online));
      vm_compute; auto.
  - apply (Levels_panics_above_trace (SetLevel 4294967295%N sample.online));
      vm_compute; auto.
Defined.

(** X2: for thresholds among the seven levels, [Levels] has one entry per
    level from panic to the threshold, panic is always enabled, and moving
    the threshold towards trace only adds levels. *)
Theorem Levels_grow_with_threshold (h1 h2 : TelegramHook) (l : logrus.Level) :
  (Level h1 <= Level h2)%N -> (Level h2 <= TraceLevel)%N ->
  (exists ls, Levels h1 = Some ls /\ length ls = S (N.to_nat (Level h1))) /\
  enabled h1 PanicLevel = true /\
  (enabled h1 l = true -> enabled h2 l = true).
Proof.
  unfold Level. intros H12 H2.
  assert (H1 : (level h1 <= TraceLevel)%N) by lia.
  unfold enabled. rewrite !Levels_in_range by assumption.
  unfold TraceLevel in *.
  split; [|split].
  - eexists. split; [reflexivity|].
    rewrite length_take. change (length AllLevels) with 7%nat. lia.
  - apply existsb_take_AllLevels; [lia|]. unfold PanicLevel. lia.
  - rewrite !existsb_take_AllLevels by lia. lia.
Qed.

Lemma Levels_grow_with_threshold_witness :
  enabled (SetLevel InfoLevel sample.online) ErrorLevel = true.
Proof.
  apply (Levels_grow_with_threshold sample.online
           (SetLevel InfoLevel sample.online) ErrorLevel).
  - vm_compute. discriminate.
  - vm_compute. discriminate.
  - reflexivity.
Defined.

(** ** Options *)

Lemma applyOptions_app (o1 o2 : list Option) (h : TelegramHook) :
  applyOptions (o1 ++ o2) h = applyOptions o2 (applyOptions o1 h).
Proof. unfold applyOptions. apply fold_left_app. Qed.

Lemma applyOptions_notWithLevel (post : list Option) (h : TelegramHook) :
  Forall notWithLevel post -> Level (applyOptions post h) = Level h.
Proof.
  intros Hpost. revert h.
  induction Hpost as [|o post [[b ->]|[t ->]] _ IH]; intros h;
    [reflexivity | |]; change (applyOptions (?o :: post) h)
                         with (applyOptions post (o h)); rewrite IH.
  - reflexivity.
  - unfold WithTimeout. now destruct (0 <? t).
Qed.

Lemma applyOptions_notWithAsync (post : list Option) (h : TelegramHook) :
  Forall notWithAsync post -> Async (applyOptions post h) = Async h.
Proof.
  intros Hpost. revert h.
  induction Hpost as [|o post [[l ->]|[t ->]] _ IH]; intros h;
    [reflexivity | |]; change (applyOptions (?o :: post) h)
                         with (applyOptions post (o h)); rewrite IH.
  - reflexivity.
  - unfold WithTimeout. now destruct (0 <? t).
Qed.

(** X4: options are applied from left to right.  The provided options
    never change the application name, the token, the chat, the thread or
    the transport of the client; the level of the hook is the one of the
    last [WithLevel] in the list and its mode the one of the last
    [WithAsync]. *)
Theorem applyOptions_provided (options : list Option) (h : TelegramHook) :
  Forall provided options ->
  (AppName (applyOptions options h) = AppName h /\
   AuthToken (applyOptions options h) = AuthToken h /\
   ChatId (applyOptions options h) = ChatId h /\
   ThreadId (applyOptions options h) = ThreadId h /\
   Transport (client (applyOptions options h)) = Transport (client h)) /\
  (forall pre l post,
      options = pre ++ WithLevel l :: post -> Forall notWithLevel post ->
      Level (applyOptions options h) = l) /\
  (forall pre b post,
      options = pre ++ WithAsync b :: post -> Forall notWithAsync post ->
      Async (applyOptions options h) = b).
Proof.
  intros Hprov. split; [|split].
  - revert h. induction Hprov as [|o options Ho _ IH]; intros h;
      [repeat split|].
    change (applyOptions (o :: options) h) with (applyOptions options (o h)).
    destruct (IH (o h)) as (-> & -> & -> & -> & ->).
    destruct Ho as [b|t|l]; try (repeat split).
    all: unfold WithTimeout; destruct (0 <? t); reflexivity.
  - intros pre l post -> Hpost.
    rewrite applyOptions_app.
    change (applyOptions (WithLevel l :: post) ?x)
      with (applyOptions post (WithLevel l x)).
    now rewrite applyOptions_notWithLevel.
  - intros pre b post -> Hpost.
    rewrite applyOptions_app.
    change (applyOptions (WithAsync b :: post) ?x)
      with (applyOptions post (WithAsync b x)).
    now rewrite applyOptions_notWithAsync.
Qed.

Lemma applyOptions_provided_witness :
  Level (applyOptions
           [WithLevel DebugLevel; WithLevel WarnLevel; WithTimeout 30;
            WithAsync true] sample.online) = WarnLevel.
Proof.
  destruct (applyOptions_provided
              [WithLevel DebugLevel; WithLevel WarnLevel; WithTimeout 30;
               WithAsync true] sample.online
              ltac:(repeat constructor)) as (_ & Hlevel & _).
  apply (Hlevel [WithLevel DebugLevel] WarnLevel
           [WithTimeout 30; WithAsync true] eq_refl).
  constructor; [right; exists 30; reflexivity|].
  constructor; [left; exists true; reflexivity|].
  constructor.
Defined.

(** X5: [WithTimeout] ignores a timeout that is not positive: the hook,
    its client included, stays as it was, and construction with such an
    option gives what it gives without it. *)
Theorem WithTimeout_not_positive `{GoLib} (timeout : Z)
    (appName authToken chatId threadId : string) (c : Client)
    (options : list Option) :
  timeout <= 0 ->
  (forall h, WithTimeout timeout h = h) /\
  NewTelegramHookWithClient appName authToken chatId threadId c
    (options ++ [WithTimeout timeout])
  = NewTelegramHookWithClient appName authToken chatId threadId c options.
Proof.
  intros Ht.
  assert (Hid : forall h, WithTimeout timeout h = h).
  { intros h. unfold WithTimeout.
    destruct (Z.ltb_spec 0 timeout); [lia | reflexivity]. }
  split; [exact Hid|].
  unfold NewTelegramHookWithClient. cbv zeta.
  rewrite applyOptions_app.
  change (applyOptions [WithTimeout timeout] ?x) with (WithTimeout timeout x).
  now rewrite Hid.
Qed.

Lemma WithTimeout_not_positive_witness :
  WithTimeout 0 sample.online = sample.online.
Proof.
  apply (@WithTimeout_not_positive plain.lib 0 "svc" "t" "@chat" ""
           (sample.answering (inr (Document sample.accepted))) []).
  lia.
Defined.

(** ** Construction *)

Section ConstructionProperties.
Context `{GoLib}.

(** X6: construction gives either a hook and no error or an error and no
    hook.  It gives a hook exactly when the transport answers the [getMe]
    request of the configured hook with a document that decodes with
    [ok = true]; the hook is then the one built from the arguments with the
    options applied. *)
Theorem NewTelegramHookWithClient_succeeds_iff
    (appName authToken chatId threadId : string) (c : Client)
    (options : list Option) :
  let h := applyOptions options
             (mkHook c appName authToken chatId threadId ErrorLevel false) in
  let result :=
    NewTelegramHookWithClient appName authToken chatId threadId c options in
  (result = (Some h, None) \/ exists err, result = (None, Some err)) /\
  (result = (Some h, None) <->
   exists r, Transport (client h) (getMeRequest h) = inr (Document r)
             /\ Ok r = true).
Proof.
  intros h result. subst result.
  unfold NewTelegramHookWithClient, verifyToken, Get, do, getMeRequest.
  cbv zeta. fold h.
  destruct (Transport (client h) _) as [cause|[why|r]]; cbn [Decode].
  - split; [right; eexists; reflexivity|].
    split; [discriminate | intros (r & Hr & _); discriminate].
  - split; [right; eexists; reflexivity|].
    split; [discriminate | intros (r & Hr & _); discriminate].
  - destruct (Ok r) eqn:Hok; cbn [negb].
    + split; [left; reflexivity|].
      split; [intros _; exists r; split; [reflexivity|exact Hok] | reflexivity].
    + split; [right; eexists; reflexivity|].
      split; [discriminate|].
      intros (r' & Hr & Hok'). injection Hr as <-. congruence.
Qed.


End ConstructionProperties.


(** ** Diagnostics of the delivery *)

Lemma append_eq_self_inv (a b : string) : a +:+ b = a -> b = "".
Proof.
  induction a as [|c a IH]; [now rewrite append_nil_l|].
  rewrite append_cons. intros [= Hab]. now apply IH.
Qed.

Section DiagnosticProperties.
Context `{GoLib}.

(** X8: [sendMessage] writes to os.Stderr exactly when the HTTP round trip
    fails; an undecodable body and a response with [ok = false] come back
    as an error without a diagnostic.  It returns nil exactly when the
    response decodes with [ok = true], and it starts no goroutine. *)
Theorem sendMessage_diagnostic_iff (h : TelegramHook) (msg : string) (w : World) :
  (stderr (snd (sendMessage h msg w)) <> stderr w <->
   exists cause, Transport (client h) (sendMessageRequest h msg) = inl cause) /\
  (fst (sendMessage h msg w) = None <->
   exists r, Transport (client h) (sendMessageRequest h msg) = inr (Document r)
             /\ Ok r = true) /\
  goroutines (snd (sendMessage h msg w)) = goroutines w.
Proof.
  unfold sendMessage, Post, do. fold (sendMessageRequest h msg).
  destruct (Transport (client h) (sendMessageRequest h msg)) as [cause|[why|r]];
    cbn [Decode].
  - split; [|split; [|reflexivity]].
    + split; [intros _; now exists cause|]. intros _ Heq. cbn in Heq.
      apply append_eq_self_inv in Heq. discriminate.
    + split; [discriminate | intros (r & Hr & _); discriminate].
  - split; [|split; [|reflexivity]].
    + split; [intros Hne; now contradiction Hne | intros [c Hc]; discriminate].
    + split; [discriminate | intros (r & Hr & _); discriminate].
  - destruct (Ok r) eqn:Hok; cbn [negb]; (split; [|split; [|reflexivity]]).
    + split; [intros Hne; now contradiction Hne | intros [c Hc]; discriminate].
    + split; [intros _; now exists r | reflexivity].
    + split; [intros Hne; now contradiction Hne | intros [c Hc]; discriminate].
    + split; [discriminate|].
      intros (r' & Hr & Hok'). injection Hr as <-. congruence.
Qed.

(** X9: in synchronous mode a failed round trip is reported twice: the
    text of the error is written to os.Stderr once by [sendMessage] and once
    more by [Fire], the second sentence following the first without a line
    break, and [Fire] returns the client's error. *)
Theorem Fire_sync_transport_failure_written_twice order h entry w cause :
  Async h = false ->
  Transport (client h)
    (sendMessageRequest h (createMessageIn order h entry)) = inl cause ->
  let err := url_Error "Post" (JoinPath (ApiEndpoint h) "sendMessage") cause in
  Fire order h entry w =
    (Some err,
     mkWorld
       (stderr w
          +:+ "Encountered error when issuing request to Telegram API, "
          +:+ Error err
          +:+ "Unable to send message, " +:+ Error err)
       (goroutines w)).
Proof.
  intros Hsync Ht err. unfold Fire. rewrite Hsync.
  unfold mbind, M_bind, sendMessage, Post, do.
  fold (sendMessageRequest h (createMessageIn order h entry)). rewrite Ht.
  unfold Fprint_Stderr, mret, M_ret.
  cbn [stderr goroutines urlErrorOp method url sendMessageRequest].
  fold err. cbv beta iota zeta delta [mbind M_bind stderr goroutines].
  rewrite !append_assoc. reflexivity.
Qed.

(** X10: [Fire] returns nil exactly when the hook is asynchronous or the
    response to the send decodes with [ok = true]; a synchronous [Fire] that
    returns nil has written nothing and started nothing. *)
Theorem Fire_returns_nil_iff order h entry w :
  (fst (Fire order h entry w) = None <->
   Async h = true \/
   exists r,
     Transport (client h)
       (sendMessageRequest h (createMessageIn order h entry))
       = inr (Document r) /\ Ok r = true) /\
  (Async h = false -> fst (Fire order h entry w) = None ->
   snd (Fire order h entry w) = w).
Proof.
  unfold Fire. destruct (Async h) eqn:Hmode.
  - split; [|discriminate]. split; [now left | reflexivity].
  - unfold mbind, M_bind, sendMessage, Post, do.
    fold (sendMessageRequest h (createMessageIn order h entry)).
    destruct (Transport (client h) _) as [cause|[why|r]]; cbn [Decode].
    + split; [|discriminate].
      split; [discriminate | intros [Hm|(r & Hr & _)]; discriminate].
    + split; [|discriminate].
      split; [discriminate | intros [Hm|(r & Hr & _)]; discriminate].
    + destruct (Ok r) eqn:Hok; cbn [negb].
      * split; [|reflexivity].
        split; [intros _; right; now exists r | reflexivity].
      * split; [|discriminate]. split; [discriminate|].
        intros [Hm|(r' & Hr & Hok')]; [discriminate|].
        injection Hr as <-. congruence.
Qed.

(** X11: the goroutine of an asynchronous [Fire] leaves no trace when the
    endpoint answers at all: whether the response has [ok = false] or its
    body cannot be decoded, nothing is written to os.Stderr and the error is
    dropped. *)
Theorem runGoroutine_silent_when_answered (h : TelegramHook) (msg : string)
    (w : World) (res : Body) :
  Transport (client h) (sendMessageRequest h msg) = inr res ->
  runGoroutine h msg w = (tt, w).
Proof.
  intros Ht. unfold runGoroutine, mbind, M_bind, sendMessage, Post, do.
  fold (sendMessageRequest h msg). rewrite Ht.
  destruct res as [why|r]; cbn [Decode]; [reflexivity|].
  destruct (negb (Ok r)); reflexivity.
Qed.

(** X12: for a response with [ok = false] whose description holds no [%],
    a synchronous [Fire] returns the error that reads as the fixed sentence,
    the error code and the description, and writes it to os.Stderr after
    [Unable to send message, ]. *)
Theorem Fire_sync_error_text order h entry w r :
  Async h = false ->
  Transport (client h)
    (sendMessageRequest h (createMessageIn order h entry))
    = inr (Document r) ->
  Ok r = false ->
  match Desc r with
  | Some desc => Str.HasByte desc "%" = false
  | None => True
  end ->
  let text :=
    "Received error response from Telegram API"
      +:+ match ErrorCode r with
          | Some code => " (error code " +:+ Str.Itoa code +:+ ")"
          | None => ""
          end
      +:+ match Desc r with
          | Some desc => ": " +:+ desc
          | None => ""
          end in
  Fire order h entry w =
    (Some (errorString text),
     mkWorld (stderr w +:+ "Unable to send message, " +:+ text)
       (goroutines w)).
Proof.
  intros Hsync Ht Hok Hdesc text.
  rewrite (Fire_sync_error_response order h entry w r Hsync Ht Hok).
  rewrite (errorResponse_text_kept r Hdesc).
  assert (Htext : errorResponseText r = text).
  { unfold errorResponseText, text.
    destruct (ErrorCode r), (Desc r);
      rewrite ?append_assoc, ?append_nil_l, ?append_nil_r; reflexivity. }
  now rewrite Htext.
Qed.

End DiagnosticProperties.

Lemma Fire_sync_transport_failure_written_twice_witness :
  stderr (snd (@Fire plain.lib [("n", VInt 1)] sample.offline sample.boom
                 sample.quiet))
  = "Encountered error when issuing request to Telegram API, "
      +:+ @Error plain.lib
            (url_Error "Post"
               "https://api.telegram.org/bot123456:ABC-def/sendMessage"
               "dial tcp: connection refused")
      +:+ "Unable to send message, "
      +:+ @Error plain.lib
            (url_Error "Post"
               "https://api.telegram.org/bot123456:ABC-def/sendMessage"
               "dial tcp: connection refused").
Proof.
  rewrite (@Fire_sync_transport_failure_written_twice plain.lib
             [("n", VInt 1)] sample.offline sample.boom sample.quiet
             "dial tcp: connection refused" eq_refl eq_refl).
  reflexivity.
Defined.

Lemma runGoroutine_silent_when_answered_witness :
  @runGoroutine plain.lib
    (sample.hook (sample.answering (inr (Document sample.unauthorized))))
    "text" sample.quiet = (tt, sample.quiet).
Proof.
  apply (@runGoroutine_silent_when_answered plain.lib
           (sample.hook (sample.answering (inr (Document sample.unauthorized))))
           "text" sample.quiet (Document sample.unauthorized)).
  reflexivity.
Defined.

Lemma Fire_sync_error_text_witness :
  fst (@Fire plain.lib [("n", VInt 1)]
         (sample.hook (sample.answering (inr (Document sample.unauthorized))))
         sample.boom sample.quiet)
  = Some (errorString
            "Received error response from Telegram API (error code 401): Unauthorized").
Proof.
  rewrite (@Fire_sync_error_text plain.lib [("n", VInt 1)]
             (sample.hook (sample.answering (inr (Document sample.unauthorized))))
             sample.boom sample.quiet sample.unauthorized
             eq_refl eq_refl eq_refl eq_refl).
  reflexivity.
Defined.

(** ** The field block *)

(** X13: an entry without fields is formatted as the first line alone:
    the label, [@], the application name, [ - ] and the message, with no
    <pre> block and no line feed added. *)
Theorem createMessage_without_fields h entry out :
  Data entry = ∅ ->
  createMessage h entry out ->
  out = levelTag (EntryLevel entry) +:+ "@" +:+ AppName h +:+ " - "
          +:+ Message entry.
Proof.
  intros Hempty (order & _ & ->).
  rewrite createMessageIn_unfold, Hempty, map_size_empty. reflexivity.
Qed.

Lemma createMessage_without_fields_witness :
  createMessageIn [] sample.online sample.traced = "@svc - step".
Proof.
  apply (createMessage_without_fields sample.online sample.traced).
  - reflexivity.
  - exists []. split; [|reflexivity]. unfold rangeOrder. vm_compute. constructor.
Defined.

(** X14: when the entry has fields, everything after the first line is
    the <pre> block, and between [<pre>] and [</pre>] no [<] and no [>]
    occurs and every [&] starts an escape: neither a key nor a value of a
    field can open or close a tag. *)
Theorem createMessage_field_block_has_no_markup h entry out :
  Data entry <> ∅ ->
  createMessage h entry out ->
  exists block,
    out = levelTag (EntryLevel entry) +:+ "@" +:+ AppName h +:+ " - "
            +:+ Message entry +:+ LF +:+ "<pre>" +:+ block +:+ LF +:+ "</pre>" /\
    Str.HasByte block "<" = false /\
    Str.HasByte block ">" = false /\
    ampersandsAreReferences block = true.
Proof.
  intros Hne (order & _ & ->).
  assert (Hsz : (0 <? size (Data entry))%nat = true).
  { apply Nat.ltb_lt. destruct (size (Data entry)) eqn:Hs; [|lia].
    now apply map_size_empty_iff in Hs. }
  exists (fieldBlock order). split; [|apply fieldBlock_no_markup].
  rewrite createMessageIn_unfold, Hsz. unfold header.
  rewrite !append_assoc. reflexivity.
Qed.

Lemma createMessage_field_block_has_no_markup_witness :
  exists block,
    sample.aThenB
    = "<b>ERROR</b>@svc - boom" +:+ LF +:+ "<pre>" +:+ block +:+ LF +:+ "</pre>"
    /\ Str.HasByte block "<" = false.
Proof.
  destruct (createMessage_field_block_has_no_markup sample.online
              sample.twoFields sample.aThenB) as (block & Hout & Hlt & _).
  - vm_compute. discriminate.
  - exists [("a", VInt 1); ("b", VString "<x>")]. split; [|reflexivity].
    unfold rangeOrder, sample.twoFields. cbn [Data].
    rewrite map_to_list_insert by reflexivity.
    rewrite map_to_list_singleton. reflexivity.
  - exists block. split; [exact Hout | exact Hlt].
Defined.

(** X15: [html.EscapeString], through which every field line goes, loses
    nothing: two lines with the same escaped text are the same line. *)
Theorem EscapeString_injective (s t : string) :
  html.EscapeString s = html.EscapeString t -> s = t.
Proof.
  intros Heq.
  rewrite <- (UnescapeString_EscapeString sample.entity (fun _ => (0, 0))
                (fun x => x) eq_refl eq_refl eq_refl s).
  rewrite Heq.
  apply (UnescapeString_EscapeString sample.entity (fun _ => (0, 0))
           (fun x => x) eq_refl eq_refl eq_refl).
Qed.

Lemma EscapeString_injective_witness :
  fieldLine ("b", VString "<x>") = fieldLine ("b", VString "<x>").
Proof.
  apply (EscapeString_injective (fieldLine ("b", VString "<x>"))
           (fieldLine ("b", VString "<x>"))).
  reflexivity.
Defined.
